(** * System Guardian: service orchestration and health monitoring

    A shallow embedding of
    [Auralis_App/backend/services/system_guardian/guardian.py]:
    the [ServiceManager] (process supervisor), the [HealthMonitor]
    (health polling, backoff, restart) and [background_monitor] (the
    orchestration loop), followed by the properties the design document
    states about them.

    The Python code talks to the operating system (psutil, subprocess,
    aiohttp, the clock).  Every such call is answered by an oracle [OS]
    indexed by the number of calls made so far, so that the answers may
    change arbitrarily between two calls.  The two Python objects share one
    store (the [HealthMonitor] keeps a reference to the [ServiceManager]);
    the store is the record [Guardian].  A computation returns its Python
    result (a value or a raised exception), the new store and the list of
    events it emitted (log records, sleeps, process and network actions). *)

From stdpp Require Import base numbers strings list gmap.

Open Scope Z_scope.

(** ** Exceptions *)

(** The exception classes the code names, plus two catch-all classes: any
    other subclass of [Exception] (OSError, aiohttp.ClientError,
    asyncio.TimeoutError, a JSON decoding error, AttributeError, ...) and
    the classes that derive from [BaseException] only (KeyboardInterrupt,
    SystemExit, asyncio.CancelledError), which [except Exception] does not
    catch. *)
Inductive exn : Type :=
| NoSuchProcess
| AccessDenied
| TimeoutExpired
| OtherError (what : string)
| Interrupt (what : string).

Definition is_Exception (e : exn) : bool :=
  match e with
  | Interrupt _ => false
  | _ => true
  end.

(** [except (psutil.NoSuchProcess, psutil.AccessDenied)] *)
Definition is_NoSuchProcess_or_AccessDenied (e : exn) : bool :=
  match e with
  | NoSuchProcess | AccessDenied => true
  | _ => false
  end.

(** [except psutil.TimeoutExpired] *)
Definition is_TimeoutExpired (e : exn) : bool :=
  match e with
  | TimeoutExpired => true
  | _ => false
  end.

Inductive result (A : Type) : Type :=
| Ok (a : A)
| Raised (e : exn).
Arguments Ok {A} a.
Arguments Raised {A} e.

(** ** Data model *)

(** One entry of [STARTUP_ORDER].  [cfg_health_endpoint] is optional in the
    code ([config.get('health_endpoint', '/health')]). *)
Record Config : Type := {
  cfg_name : string;
  cfg_port : Z;
  cfg_path : string;
  cfg_health_endpoint : option string
}.

(** The ['started_by'] tag: ['external'] for an adopted listener,
    ['guardian'] for a process the guardian spawned. *)
Inductive StartedBy : Type := external | guardian.

(** A value of [self.services].  The adopted entry has no ['process'],
    ['restart_count'] and ['last_restart'] keys: [None] stands for an absent
    key (and, for [last_restart], also for the Python value [None], which
    the code never tells apart). *)
Record ServiceInfo : Type := {
  pid : Z;
  port : Z;
  process : option Z;
  started_by : StartedBy;
  start_time : Z;
  restart_count : option Z;
  last_restart : option Z
}.

(** A parsed JSON document, as [response.json()] returns it. *)
#[local] Unset Elimination Schemes.
Inductive json : Type :=
| JNull
| JBool (b : bool)
| JNumber (z : Z)
| JString (s : string)
| JArray (items : list json)
| JObject (fields : list (string * json)).
#[local] Set Elimination Schemes.

Record HttpResponse : Type := {
  resp_status : Z;
  resp_json : result json
}.

(** A value of [self.health_status]: ['healthy'], ['last_check'] and either
    ['response'] or ['error']. *)
Record HealthRecord : Type := {
  healthy : bool;
  last_check : Z;
  detail : json + exn
}.

(** One element of [psutil.net_connections()]. *)
Record sconn : Type := {
  laddr_port : Z;
  status : string;
  conn_pid : option Z
}.

(** ** Events *)

Inductive level : Type := DEBUG | INFO | WARNING | ERROR.

(** One constructor per [logger] call of the module. *)
Inductive message : Type :=
| MsgPortInUse (port pid : Z) (name : string)
| MsgAlreadyRunning (name : string)
| MsgScriptNotFound (root path : string)
| MsgStarting (name : string) (port : Z)
| MsgStarted (name : string) (pid : Z)
| MsgFailedStart (name : string) (e : exn)
| MsgNotTracked (name : string)
| MsgStopping (name : string) (pid : Z)
| MsgStoppedGracefully (name : string)
| MsgForceKilling (name : string)
| MsgFailedStop (name : string) (e : exn)
| MsgHealthCheckFailed (name : string) (e : exn)
| MsgIncreasedBackoff (name : string) (delay : Z)
| MsgWaitingBeforeRestart (delay : Z) (name : string)
| MsgMonitorStarting
| MsgNotRunning (name : string)
| MsgFailedHealthCheck (name : string)
| MsgHealthy (name : string)
| MsgMonitorError (e : exn)
| MsgFailedToStart (name : string)
| MsgBanner (text : string).

Inductive event : Type :=
| Log (lv : level) (m : message)
| Sleep (seconds : Z)
| Popen (python root script : string)
| Terminate (pid : Z)
| Kill (pid : Z)
| Wait (pid timeout : Z)
| HttpGet (port : Z) (endpoint : string).

(** ** The operating system *)

(** Each field answers one kind of call; the first argument is the number of
    calls made before it. *)
Record OS : Type := {
  (** [psutil.net_connections()] *)
  net_connections : nat -> result (list sconn);
  (** [psutil.Process(pid).is_running()] *)
  process_is_running : nat -> Z -> result bool;
  (** [psutil.Process(pid)] *)
  process_lookup : nat -> Z -> result unit;
  (** [process.terminate()] *)
  process_terminate : nat -> Z -> result unit;
  (** [process.wait(timeout=...)] *)
  process_wait : nat -> Z -> Z -> result unit;
  (** [process.kill()] *)
  process_kill : nat -> Z -> result unit;
  (** [(root_path / path).exists()] *)
  path_exists : nat -> string -> string -> bool;
  (** [subprocess.Popen([python, script], cwd=root)], giving [process.pid] *)
  subprocess_Popen : nat -> string -> string -> string -> result Z;
  (** [session.get(url, timeout=5)] on [http://localhost:<port><endpoint>] *)
  http_get : nat -> Z -> string -> result HttpResponse;
  (** [datetime.now()] *)
  datetime_now : nat -> Z
}.

(** ** The store *)

Record Guardian : Type := {
  root_path : string;
  venv_python : string;
  services : gmap string ServiceInfo;
  health_status : gmap string HealthRecord;
  backoff_delays : gmap string Z;
  clock : nat
}.

(** [self.max_backoff] and [self.base_backoff] *)
Definition max_backoff : Z := 300.
Definition base_backoff : Z := 5.

Definition tick (g : Guardian) : Guardian :=
  {| root_path := root_path g; venv_python := venv_python g;
     services := services g; health_status := health_status g;
     backoff_delays := backoff_delays g; clock := S (clock g) |}.

Definition with_services (f : gmap string ServiceInfo -> gmap string ServiceInfo)
    (g : Guardian) : Guardian :=
  {| root_path := root_path g; venv_python := venv_python g;
     services := f (services g); health_status := health_status g;
     backoff_delays := backoff_delays g; clock := clock g |}.

Definition with_health_status (f : gmap string HealthRecord -> gmap string HealthRecord)
    (g : Guardian) : Guardian :=
  {| root_path := root_path g; venv_python := venv_python g;
     services := services g; health_status := f (health_status g);
     backoff_delays := backoff_delays g; clock := clock g |}.

Definition with_backoff_delays (f : gmap string Z -> gmap string Z)
    (g : Guardian) : Guardian :=
  {| root_path := root_path g; venv_python := venv_python g;
     services := services g; health_status := health_status g;
     backoff_delays := f (backoff_delays g); clock := clock g |}.

(** ** Computations *)

Definition M (A : Type) : Type := Guardian -> result A * Guardian * list event.

Definition ret {A} (a : A) : M A := fun g => (Ok a, g, []).

Definition raise {A} (e : exn) : M A := fun g => (Raised e, g, []).

Definition bind {A B} (m : M A) (k : A -> M B) : M B :=
  fun g =>
    match m g with
    | (Ok a, g1, t1) =>
        match k a g1 with
        | (r, g2, t2) => (r, g2, t1 ++ t2)
        end
    | (Raised e, g1, t1) => (Raised e, g1, t1)
    end.

Notation "x <- m ;; k" := (bind m (fun x => k))
  (at level 100, m at next level, right associativity).
Notation "m ;;; k" := (bind m (fun _ => k))
  (at level 100, right associativity).

(** [try: body  except <classes> as e: handler e]; the store changes and
    the events of [body] up to the raise are kept. *)
Definition try_except {A} (body : M A) (classes : exn -> bool)
    (handler : exn -> M A) : M A :=
  fun g =>
    match body g with
    | (Raised e, g1, t1) =>
        if classes e then
          match handler e g1 with
          | (r, g2, t2) => (r, g2, t1 ++ t2)
          end
        else (Raised e, g1, t1)
    | done => done
    end.

Definition get : M Guardian := fun g => (Ok g, g, []).

Definition modify (f : Guardian -> Guardian) : M unit := fun g => (Ok tt, f g, []).

Definition emit (e : event) : M unit := fun g => (Ok tt, g, [e]).

Definition log (lv : level) (m : message) : M unit := emit (Log lv m).

(** [await asyncio.sleep(seconds)] *)
Definition sleep (seconds : Z) : M unit := emit (Sleep seconds).

Definition result_of {A} (r : result A) : M A := fun g => (r, g, []).

Section Guardian.

Variable os : OS.

(** A call that may raise. *)
Definition call {A} (f : OS -> nat -> result A) : M A :=
  fun g => (f os (clock g), tick g, []).

(** A call that always answers. *)
Definition ask {A} (f : OS -> nat -> A) : M A :=
  fun g => (Ok (f os (clock g)), tick g, []).

Definition now : M Z := ask datetime_now.

(** *** ServiceManager *)

(** The loop of [is_port_in_use]: the pid of the first listening connection
    on [port] (which may itself be [None]). *)
Fixpoint first_listener (p : Z) (conns : list sconn) : option Z :=
  match conns with
  | [] => None
  | conn :: rest =>
      if (laddr_port conn =? p) && String.eqb (status conn) "LISTEN"
      then conn_pid conn
      else first_listener p rest
  end.

Definition is_port_in_use (p : Z) : M (option Z) :=
  conns <- call net_connections ;;
  ret (first_listener p conns).

(** Truth value of an [Optional[int]]: [None] and [0] are false. *)
Definition if_pid (o : option Z) : option Z :=
  match o with
  | Some p => if p =? 0 then None else Some p
  | None => None
  end.

Definition is_service_running (service_name : string) : M bool :=
  g <- get ;;
  match services g !! service_name with
  | None => ret false
  | Some service_info =>
      let p := pid service_info in
      if p =? 0 then ret false
      else
        try_except
          (call (fun o n => process_is_running o n p))
          is_NoSuchProcess_or_AccessDenied
          (fun _ => ret false)
  end.

Definition start_service (config : Config) : M bool :=
  let service_name := cfg_name config in
  let p := cfg_port config in
  existing_pid <- is_port_in_use p ;;
  match if_pid existing_pid with
  | Some existing =>
      log WARNING (MsgPortInUse p existing service_name) ;;;
      t <- now ;;
      modify (with_services (insert service_name
        {| pid := existing; port := p; process := None;
           started_by := external; start_time := t;
           restart_count := None; last_restart := None |})) ;;;
      ret true
  | None =>
      running <- is_service_running service_name ;;
      if running then
        log INFO (MsgAlreadyRunning service_name) ;;;
        ret true
      else
        g <- get ;;
        found <- ask (fun o n => path_exists o n (root_path g) (cfg_path config)) ;;
        if negb found then
          log ERROR (MsgScriptNotFound (root_path g) (cfg_path config)) ;;;
          ret false
        else
          try_except
            (log INFO (MsgStarting service_name p) ;;;
             emit (Popen (venv_python g) (root_path g) (cfg_path config)) ;;;
             child <- call (fun o n => subprocess_Popen o n (venv_python g)
                                         (root_path g) (cfg_path config)) ;;
             t <- now ;;
             modify (with_services (insert service_name
               {| pid := child; port := p; process := Some child;
                  started_by := guardian; start_time := t;
                  restart_count := Some 0; last_restart := None |})) ;;;
             log INFO (MsgStarted service_name child) ;;;
             sleep 2 ;;;
             ret true)
            is_Exception
            (fun e =>
               log ERROR (MsgFailedStart service_name e) ;;;
               ret false)
  end.

Definition stop_service (service_name : string) : M bool :=
  g <- get ;;
  match services g !! service_name with
  | None =>
      log WARNING (MsgNotTracked service_name) ;;;
      ret false
  | Some service_info =>
      let p := pid service_info in
      if p =? 0 then ret false
      else
        try_except
          (call (fun o n => process_lookup o n p) ;;;
           log INFO (MsgStopping service_name p) ;;;
           emit (Terminate p) ;;;
           call (fun o n => process_terminate o n p) ;;;
           try_except
             (emit (Wait p 10) ;;;
              call (fun o n => process_wait o n p 10) ;;;
              log INFO (MsgStoppedGracefully service_name))
             is_TimeoutExpired
             (fun _ =>
                log WARNING (MsgForceKilling service_name) ;;;
                emit (Kill p) ;;;
                call (fun o n => process_kill o n p) ;;;
                emit (Wait p 5) ;;;
                call (fun o n => process_wait o n p 5)) ;;;
           modify (with_services (delete service_name)) ;;;
           ret true)
          is_NoSuchProcess_or_AccessDenied
          (fun e =>
             log ERROR (MsgFailedStop service_name e) ;;;
             ret false)
  end.

(** *** HealthMonitor *)

(** [dict.get(key)] on the items of a Python dict. *)
Fixpoint dict_get (key : string) (fields : list (string * json)) : option json :=
  match fields with
  | [] => None
  | (k, v) :: rest => if String.eqb k key then Some v else dict_get key rest
  end.

(** [data.get(key)]: only a dict has the method; on any other JSON value
    the attribute lookup raises AttributeError. *)
Definition py_get (data : json) (key : string) : result (option json) :=
  match data with
  | JObject fields => Ok (dict_get key fields)
  | _ => Raised (OtherError "AttributeError")
  end.

(** [value == 'healthy'] *)
Definition eq_healthy (value : option json) : bool :=
  match value with
  | Some (JString s) => String.eqb s "healthy"
  | _ => false
  end.

(** The result is [Some b] for a returned [bool] and [None] when the body
    falls off its end, which in Python returns [None]. *)
Definition check_health (config : Config) : M (option bool) :=
  let service_name := cfg_name config in
  let p := cfg_port config in
  let health_endpoint := default "/health" (cfg_health_endpoint config) in
  try_except
    (emit (HttpGet p health_endpoint) ;;;
     response <- call (fun o n => http_get o n p health_endpoint) ;;
     if resp_status response =? 200 then
       data <- result_of (resp_json response) ;;
       value <- result_of (py_get data "status") ;;
       let is_healthy := eq_healthy value in
       (if is_healthy
        then modify (with_backoff_delays (insert service_name base_backoff))
        else ret tt) ;;;
       t <- now ;;
       modify (with_health_status (insert service_name
         {| healthy := is_healthy; last_check := t; detail := inl data |})) ;;;
       ret (Some is_healthy)
     else ret None)
    is_Exception
    (fun e =>
       log DEBUG (MsgHealthCheckFailed service_name e) ;;;
       t <- now ;;
       modify (with_health_status (insert service_name
         {| healthy := false; last_check := t; detail := inr e |})) ;;;
       ret (Some false)).

(** Truth value of what [check_health] returned ([not None] is [True]). *)
Definition truthy (v : option bool) : bool :=
  match v with
  | Some b => b
  | None => false
  end.

Definition get_backoff_delay (service_name : string) : M Z :=
  g <- get ;;
  match backoff_delays g !! service_name with
  | None =>
      modify (with_backoff_delays (insert service_name base_backoff)) ;;;
      ret base_backoff
  | Some delay => ret delay
  end.

Definition increase_backoff (service_name : string) : M unit :=
  g <- get ;;
  let current := default base_backoff (backoff_delays g !! service_name) in
  let new_delay := Z.min (current * 2) max_backoff in
  modify (with_backoff_delays (insert service_name new_delay)) ;;;
  log INFO (MsgIncreasedBackoff service_name new_delay).

(** [info['restart_count'] = info.get('restart_count', 0) + 1;
     info['last_restart'] = now] *)
Definition count_restart (t : Z) (info : ServiceInfo) : ServiceInfo :=
  {| pid := pid info; port := port info; process := process info;
     started_by := started_by info; start_time := start_time info;
     restart_count := Some (default 0 (restart_count info) + 1);
     last_restart := Some t |}.

Definition restart_service (config : Config) : M bool :=
  let service_name := cfg_name config in
  delay <- get_backoff_delay service_name ;;
  log INFO (MsgWaitingBeforeRestart delay service_name) ;;;
  sleep delay ;;;
  stop_service service_name ;;;
  success <- start_service config ;;
  (if success then
     increase_backoff service_name ;;;
     g <- get ;;
     match services g !! service_name with
     | Some info =>
         t <- now ;;
         modify (with_services (insert service_name (count_restart t info)))
     | None => ret tt
     end
   else ret tt) ;;;
  ret success.

(** *** The orchestration loop and the lifecycle sequencer *)

(** [for x in l: body x] *)
Fixpoint for_each {A} (l : list A) (body : A -> M unit) : M unit :=
  match l with
  | [] => ret tt
  | x :: rest => body x ;;; for_each rest body
  end.

(** [while True: body], cut after [fuel] iterations.  The Python loop has
    no [break] and no [return]: [Ok tt] means that the loop is still
    running after [fuel] iterations, [Raised e] that [e] ended it. *)
Fixpoint while_true (fuel : nat) (body : M unit) : M unit :=
  match fuel with
  | O => ret tt
  | S n => body ;;; while_true n body
  end.

(** The registry the loop and the sequencer iterate over (the module
    constant [STARTUP_ORDER] in the code). *)
Variable startup_order : list Config.

(** The body of the [for config in STARTUP_ORDER] loop of
    [background_monitor]. *)
Definition monitor_service (config : Config) : M unit :=
  let service_name := cfg_name config in
  is_running <- is_service_running service_name ;;
  if negb is_running then
    log WARNING (MsgNotRunning service_name) ;;;
    restart_service config ;;;
    ret tt
  else
    is_healthy <- check_health config ;;
    if negb (truthy is_healthy) then
      log WARNING (MsgFailedHealthCheck service_name) ;;;
      restart_service config ;;;
      ret tt
    else log DEBUG (MsgHealthy service_name).

(** The [try] block of the loop. *)
Definition monitor_cycle : M unit :=
  for_each startup_order monitor_service ;;;
  sleep 30.

(** One iteration of [while True]: the [try] block and its handler. *)
Definition monitor_iteration : M unit :=
  try_except monitor_cycle is_Exception
    (fun e =>
       log ERROR (MsgMonitorError e) ;;;
       sleep 10).

Definition background_monitor (fuel : nat) : M unit :=
  log INFO MsgMonitorStarting ;;;
  sleep 10 ;;;
  while_true fuel monitor_iteration.

Definition start_all_services : M unit :=
  log INFO (MsgBanner "Starting all services in order...") ;;;
  for_each startup_order (fun config =>
    success <- start_service config ;;
    (if negb success then log ERROR (MsgFailedToStart (cfg_name config))
     else ret tt) ;;;
    sleep 3) ;;;
  log INFO (MsgBanner "All services started").

Definition stop_all_services : M unit :=
  log INFO (MsgBanner "Stopping all services...") ;;;
  for_each (rev startup_order) (fun config =>
    stop_service (cfg_name config) ;;;
    ret tt) ;;;
  log INFO (MsgBanner "All services stopped").

End Guardian.

Definition STARTUP_ORDER : list Config :=
  [ {| cfg_name := "character_extraction"; cfg_port := 8001;
       cfg_path := "backend/services/character_extraction/service.py";
       cfg_health_endpoint := Some "/health" |};
    {| cfg_name := "document_processor"; cfg_port := 8002;
       cfg_path := "backend/services/document_processor/service.py";
       cfg_health_endpoint := Some "/health" |};
    {| cfg_name := "query_engine"; cfg_port := 8003;
       cfg_path := "backend/services/query_engine/service.py";
       cfg_health_endpoint := Some "/health" |};
    {| cfg_name := "metadata_service"; cfg_port := 8004;
       cfg_path := "backend/services/metadata_service/service.py";
       cfg_health_endpoint := Some "/health" |};
    {| cfg_name := "rag_service"; cfg_port := 8005;
       cfg_path := "backend/services/rag_service/service.py";
       cfg_health_endpoint := Some "/health" |} ].

(** [ServiceManager(root_path)] followed by [HealthMonitor(service_manager)]. *)
Definition new_guardian (root python : string) : Guardian :=
  {| root_path := root; venv_python := python;
     services := ∅; health_status := ∅; backoff_delays := ∅; clock := O |}.

(** ** Observations *)

Definition outcome {A} (r : result A * Guardian * list event) : result A := r.1.1.
Definition store {A} (r : result A * Guardian * list event) : Guardian := r.1.2.
Definition events {A} (r : result A * Guardian * list event) : list event := r.2.

(** The number of processes a run spawned. *)
Definition is_Popen (e : event) : bool :=
  match e with
  | Popen _ _ _ => true
  | _ => false
  end.

Definition spawns (t : list event) : nat :=
  length (filter (fun e => is_Popen e = true) t).

(** What the orchestration loop does to a service, as its events show it:
    the loop's three verdicts ("is not running", "failed health check",
    "is healthy"), the health request of [check_health], and the record
    [restart_service] writes when it is entered. *)
Inductive step : Type :=
| NotRunning (name : string)
| Unhealthy (name : string)
| Healthy (name : string)
| HealthCheck (port : Z) (endpoint : string)
| Restart (name : string).

Definition step_of (e : event) : option step :=
  match e with
  | Log _ (MsgNotRunning n) => Some (NotRunning n)
  | Log _ (MsgFailedHealthCheck n) => Some (Unhealthy n)
  | Log _ (MsgHealthy n) => Some (Healthy n)
  | Log _ (MsgWaitingBeforeRestart _ n) => Some (Restart n)
  | HttpGet p endpoint => Some (HealthCheck p endpoint)
  | _ => None
  end.

Definition steps (t : list event) : list step := omap step_of t.

(** The backoff delays applied to [name]: [restart_service] logs the value
    of its variable [delay] and sleeps for it. *)
Definition wait_of (name : string) (e : event) : option Z :=
  match e with
  | Log _ (MsgWaitingBeforeRestart delay n) =>
      if String.eqb n name then Some delay else None
  | _ => None
  end.

Definition waits (name : string) (t : list event) : list Z :=
  omap (wait_of name) t.

(** The delay the next restart of [name] will apply. *)
Definition effective_backoff (name : string) (g : Guardian) : Z :=
  default base_backoff (backoff_delays g !! name).

Definition restart_counter (name : string) (g : Guardian) : option Z :=
  info ← services g !! name; restart_count info.

Definition last_restart_time (name : string) (g : Guardian) : option Z :=
  info ← services g !! name; last_restart info.

(** [min(5 * 2^k, 300)]: 5, 10, 20, 40, 80, 160, 300, 300, ... *)
Definition backoff_schedule (k : nat) : Z :=
  Z.min (base_backoff * 2 ^ Z.of_nat k) max_backoff.

(** A history of the health monitor: restarts and health checks, of any
    services, one after the other. *)
Inductive op : Type :=
| restart (config : Config)
| check (config : Config).

Definition run_op (os : OS) (o : op) : M (option bool) :=
  match o with
  | restart config => success <- restart_service os config ;; ret (Some success)
  | check config => check_health os config
  end.

Fixpoint run_ops (os : OS) (ops : list op) : M (list (option bool)) :=
  match ops with
  | [] => ret []
  | o :: rest =>
      r <- run_op os o ;;
      rs <- run_ops os rest ;;
      ret (r :: rs)
  end.

Definition is_restart_of (name : string) (o : op) : bool :=
  match o with
  | restart c => String.eqb (cfg_name c) name
  | check _ => false
  end.

Fixpoint restarts_of (name : string) (ops : list op) : nat :=
  match ops with
  | [] => O
  | o :: rest =>
      ((if is_restart_of name o then 1 else 0) + restarts_of name rest)%nat
  end.

(** The history of a service whose restarts succeed and whose health
    checks never pass: every restart of [name] returned [True] and no
    health check of [name] did. *)
Definition chronic (name : string) (o : op) (r : option bool) : Prop :=
  match o with
  | restart c => cfg_name c = name -> r = Some true
  | check c => cfg_name c = name -> r <> Some true
  end.




(** An operating system whose calls fail with subclasses of [Exception]
    only: no KeyboardInterrupt, SystemExit or task cancellation arrives
    while the guardian is inside a call. *)
Definition fault {A} (r : result A) : Prop :=
  match r with
  | Ok _ => True
  | Raised e => is_Exception e = true
  end.

Record service_faults_only (os : OS) : Prop := {
  fault_net_connections : forall n, fault (net_connections os n);
  fault_process_is_running : forall n p, fault (process_is_running os n p);
  fault_process_lookup : forall n p, fault (process_lookup os n p);
  fault_process_terminate : forall n p, fault (process_terminate os n p);
  fault_process_wait : forall n p s, fault (process_wait os n p s);
  fault_process_kill : forall n p, fault (process_kill os n p);
  fault_subprocess_Popen : forall n py root script,
    fault (subprocess_Popen os n py root script);
  fault_http_get : forall n p endpoint, fault (http_get os n p endpoint);
  fault_resp_json : forall n p endpoint response,
    http_get os n p endpoint = Ok response -> fault (resp_json response)
}.

(** ** Sample systems *)

(** A machine on which nothing listens, no process exists and no script is
    installed. *)
Definition idle_os : OS :=
  {| net_connections := fun _ => Ok [];
     process_is_running := fun _ _ => Raised NoSuchProcess;
     process_lookup := fun _ _ => Raised NoSuchProcess;
     process_terminate := fun _ _ => Ok tt;
     process_wait := fun _ _ _ => Ok tt;
     process_kill := fun _ _ => Ok tt;
     path_exists := fun _ _ _ => false;
     subprocess_Popen := fun _ _ _ _ => Raised (OtherError "FileNotFoundError");
     http_get := fun _ _ _ => Raised (OtherError "ClientConnectorError");
     datetime_now := fun n => Z.of_nat n |}.

(** A machine on which process 4242 runs and can be stopped; nothing
    listens and no script is installed. *)
Definition live_os : OS :=
  {| net_connections := fun _ => Ok [];
     process_is_running := fun _ p => if p =? 4242 then Ok true else Raised NoSuchProcess;
     process_lookup := fun _ p => if p =? 4242 then Ok tt else Raised NoSuchProcess;
     process_terminate := fun _ _ => Ok tt;
     process_wait := fun _ _ _ => Ok tt;
     process_kill := fun _ _ => Ok tt;
     path_exists := fun _ _ _ => false;
     subprocess_Popen := fun _ _ _ _ => Raised (OtherError "FileNotFoundError");
     http_get := fun _ _ _ => Raised (OtherError "ClientConnectorError");
     datetime_now := fun n => Z.of_nat n |}.

(** A machine on which process 4242 listens on port 8001 and on which the
    scripts are installed; every process that is asked about runs, and a
    spawn gives pid 5000. *)
Definition busy_os : OS :=
  {| net_connections := fun _ =>
       Ok [ {| laddr_port := 22; status := "LISTEN"; conn_pid := Some 1 |};
            {| laddr_port := 8001; status := "LISTEN"; conn_pid := Some 4242 |} ];
     process_is_running := fun _ _ => Ok true;
     process_lookup := fun _ _ => Ok tt;
     process_terminate := fun _ _ => Ok tt;
     process_wait := fun _ _ _ => Ok tt;
     process_kill := fun _ _ => Ok tt;
     path_exists := fun _ _ _ => true;
     subprocess_Popen := fun _ _ _ _ => Ok 5000;
     http_get := fun _ _ _ =>
       Ok {| resp_status := 200;
             resp_json := Ok (JObject [("status", JString "degraded")]) |};
     datetime_now := fun n => Z.of_nat n |}.

(** A machine on which nothing listens, the scripts are installed, a spawn
    gives pid 5000 and every process that is asked about runs. *)
Definition fresh_os : OS :=
  {| net_connections := fun _ => Ok [];
     process_is_running := fun _ _ => Ok true;
     process_lookup := fun _ _ => Ok tt;
     process_terminate := fun _ _ => Ok tt;
     process_wait := fun _ _ _ => Ok tt;
     process_kill := fun _ _ => Ok tt;
     path_exists := fun _ _ _ => true;
     subprocess_Popen := fun _ _ _ _ => Ok 5000;
     http_get := fun _ _ _ =>
       Ok {| resp_status := 200;
             resp_json := Ok (JObject [("status", JString "healthy")]) |};
     datetime_now := fun n => Z.of_nat n |}.

(** A machine whose health endpoints answer 500. *)
Definition failing_os : OS :=
  {| net_connections := fun _ => Ok [];
     process_is_running := fun _ _ => Ok true;
     process_lookup := fun _ _ => Ok tt;
     process_terminate := fun _ _ => Ok tt;
     process_wait := fun _ _ _ => Ok tt;
     process_kill := fun _ _ => Ok tt;
     path_exists := fun _ _ _ => true;
     subprocess_Popen := fun _ _ _ _ => Ok 5000;
     http_get := fun _ _ _ =>
       Ok {| resp_status := 500;
             resp_json := Ok (JObject [("status", JString "error")]) |};
     datetime_now := fun n => Z.of_nat n |}.

(** A machine on which the guardian may not list the sockets
    ([psutil.net_connections()] raises AccessDenied). *)
Definition denied_os : OS :=
  {| net_connections := fun _ => Raised AccessDenied;
     process_is_running := fun _ _ => Raised NoSuchProcess;
     process_lookup := fun _ _ => Raised NoSuchProcess;
     process_terminate := fun _ _ => Ok tt;
     process_wait := fun _ _ _ => Ok tt;
     process_kill := fun _ _ => Ok tt;
     path_exists := fun _ _ _ => true;
     subprocess_Popen := fun _ _ _ _ => Ok 5000;
     http_get := fun _ _ _ => Raised (OtherError "ClientConnectorError");
     datetime_now := fun n => Z.of_nat n |}.

Definition character_extraction : Config :=
  {| cfg_name := "character_extraction"; cfg_port := 8001;
     cfg_path := "backend/services/character_extraction/service.py";
     cfg_health_endpoint := Some "/health" |}.

Definition fresh_guardian : Guardian := new_guardian "/srv/Auralis_App" "python".

(** The guardian tracks [character_extraction] as process 4242, which it
    spawned and has restarted once. *)
Definition tracking_guardian : Guardian :=
  with_services (insert "character_extraction"
    {| pid := 4242; port := 8001; process := Some 4242;
       started_by := guardian; start_time := 3;
       restart_count := Some 1; last_restart := Some 7 |}) fresh_guardian.

(** ** Frames

    What a computation respects: a relation between the stores before and
    after, a property of every event emitted and a property of every
    exception raised. *)

Definition respects (R : Guardian -> Guardian -> Prop) (P : event -> Prop)
    (E : exn -> Prop) {A} (m : M A) : Prop :=
  forall g r g' t,
    m g = (r, g', t) -> R g g' /\ Forall P t /\ forall e, r = Raised e -> E e.

(** The relations used are reflexive, transitive, and blind to the call
    counter. *)
Class Frame (R : Guardian -> Guardian -> Prop) : Prop := {
  frame_refl : forall g, R g g;
  frame_trans : forall g1 g2 g3, R g1 g2 -> R g2 g3 -> R g1 g3;
  frame_tick : forall g, R g (tick g)
}.

(** The supervisor does not touch what the monitor owns. *)
Definition same_monitor (g g' : Guardian) : Prop :=
  backoff_delays g' = backoff_delays g /\ health_status g' = health_status g /\
  root_path g' = root_path g /\ venv_python g' = venv_python g.

Definition same_store (g g' : Guardian) : Prop :=
  services g' = services g /\ same_monitor g g'.

Definition any_store (g g' : Guardian) : Prop := True.

(** Events that [steps] and [waits] do not see. *)
Definition silent (e : event) : Prop := step_of e = None.

Definition no_event (e : event) : Prop := False.

Definition any_event (e : event) : Prop := True.

Definition any_exn (e : exn) : Prop := True.

Definition only_Exception (e : exn) : Prop := is_Exception e = true.

Definition only_Interrupt (e : exn) : Prop := is_Exception e = false.

Definition supervisor {A} (m : M A) : Prop := respects same_monitor silent any_exn m.

Definition probe {A} (m : M A) : Prop := respects same_store no_event any_exn m.

(** [r is True] *)
Definition returned_true (r : result (option bool)) : bool :=
  match r with
  | Ok (Some true) => true
  | _ => false
  end.

(** The store after the success branch of [restart_service]: the backoff
    delay doubled, the restart counted. *)
Definition record_restart (os : OS) (name : string) (g : Guardian) : Guardian :=
  let g1 :=
    with_backoff_delays
      (insert name (Z.min (effective_backoff name g * 2) max_backoff)) g in
  match services g1 !! name with
  | Some info =>
      with_services (insert name (count_restart (datetime_now os (clock g1)) info))
        (tick g1)
  | None => g1
  end.

(** The backoff delay of [name] after an operation that returned [r], when
    it was [d] before. *)
Definition next_backoff (name : string) (o : op) (r : option bool) (d : Z) : Z :=
  match o with
  | restart c =>
      if String.eqb (cfg_name c) name && returned_true (Ok r)
      then Z.min (d * 2) max_backoff else d
  | check c =>
      if String.eqb (cfg_name c) name && returned_true (Ok r)
      then base_backoff else d
  end.

(** The delays a history applies to [name], from the delay [d]. *)
Fixpoint applied_waits (name : string) (d : Z) (ops : list op)
    (rs : list (option bool)) : list Z :=
  match ops, rs with
  | o :: ops', r :: rs' =>
      (if is_restart_of name o then [d] else []) ++
      applied_waits name (next_backoff name o r d) ops' rs'
  | _, _ => []
  end.

Fixpoint final_backoff (name : string) (d : Z) (ops : list op)
    (rs : list (option bool)) : Z :=
  match ops, rs with
  | o :: ops', r :: rs' => final_backoff name (next_backoff name o r d) ops' rs'
  | _, _ => d
  end.

(** Only subclasses of [Exception] leave the computation. *)
Definition faults {A} (m : M A) : Prop :=
  respects any_store any_event only_Exception m.

(** ** The design document, read literally

    Four sentences of the design document say more than the code does;
    they are stated here as they are written, to be compared with the code
    on the sample systems. *)

(** "[stop] on a tracked name whose process already exited still removes
    tracking state and reports success." *)
Definition stop_removes_and_succeeds (os : OS) (name : string) (g : Guardian) : Prop :=
  let r := stop_service os name g in
  outcome r = Ok true /\ services (store r) !! name = None.



(** "When restart's start step fails, the service's recorded backoff
    delay, restart counter, and last-restart timestamp are all left
    unchanged." *)
Definition failed_restart_changes_nothing (os : OS) (config : Config)
    (g : Guardian) : Prop :=
  let name := cfg_name config in
  let r := restart_service os config g in
  outcome r = Ok false ->
  effective_backoff name (store r) = effective_backoff name g /\
  restart_counter name (store r) = restart_counter name g /\
  last_restart_time name (store r) = last_restart_time name g.

(** A machine on which the scripts are installed and a spawn gives pid
    5000, but the spawned process is gone when it is next asked about and
    never listens. *)
Definition crashing_os : OS :=
  {| net_connections := fun _ => Ok [];
     process_is_running := fun _ _ => Raised NoSuchProcess;
     process_lookup := fun _ _ => Raised NoSuchProcess;
     process_terminate := fun _ _ => Ok tt;
     process_wait := fun _ _ _ => Ok tt;
     process_kill := fun _ _ => Ok tt;
     path_exists := fun _ _ _ => true;
     subprocess_Popen := fun _ _ _ _ => Ok 5000;
     http_get := fun _ _ _ => Raised (OtherError "ClientConnectorError");
     datetime_now := fun n => Z.of_nat n |}.

(** Nine restarts of [character_extraction], with health checks in
    between. *)
Definition sample_history : list op :=
  [ restart character_extraction; check character_extraction;
    restart character_extraction; restart character_extraction;
    check character_extraction; restart character_extraction;
    restart character_extraction; restart character_extraction;
    restart character_extraction; check character_extraction;
    restart character_extraction; restart character_extraction ].

Definition sample_results : list (option bool) :=
  [ Some true; Some false; Some true; Some true; Some false; Some true;
    Some true; Some true; Some true; Some false; Some true; Some true ].

(** ** More of the module: observations *)

(** The test of the loop of [is_port_in_use], which the port check of
    [validate_guardian.py] repeats: a connection listening on port [p]. *)
Definition listens (p : Z) (conn : sconn) : bool :=
  (laddr_port conn =? p) && String.eqb (status conn) "LISTEN".

(** [validate_port_checking]:
    [any(conn.laddr.port == port and conn.status == 'LISTEN'
         for conn in psutil.net_connections())] *)
Definition port_listening (p : Z) (conns : list sconn) : bool :=
  existsb (listens p) conns.

(** The process a [terminate()] or [kill()] is sent to. *)
Definition signalled (e : event) : option Z :=
  match e with
  | Terminate p => Some p
  | Kill p => Some p
  | _ => None
  end.

(** Spawning, terminating or killing a process. *)
Definition is_process_action (e : event) : bool :=
  match e with
  | Popen _ _ _ | Terminate _ | Kill _ => true
  | _ => false
  end.

(** Every recorded backoff delay lies between the floor and the ceiling. *)
Definition bounded_backoff (g : Guardian) : Prop :=
  forall name delay,
    backoff_delays g !! name = Some delay ->
    base_backoff <= delay <= max_backoff.

(** The exception, if any, that the [try] block of [check_health] meets
    when the request is made at call [n]: raised by the request, by the
    decoding of a 200 response, or by [data.get] on a body that is not a
    dict. *)
Definition request_error (os : OS) (n : nat) (config : Config) : option exn :=
  match http_get os n (cfg_port config)
          (default "/health" (cfg_health_endpoint config)) with
  | Raised e => Some e
  | Ok response =>
      if resp_status response =? 200 then
        match resp_json response with
        | Raised e => Some e
        | Ok data =>
            match py_get data "status" with
            | Raised e => Some e
            | Ok _ => None
            end
        end
      else None
  end.

(** A step that keeps the recorded backoff delays within bounds. *)
Definition keeps_bounds (g g' : Guardian) : Prop :=
  bounded_backoff g -> bounded_backoff g'.

(** The events of an entry written afresh by [start_service]: a spawn, or
    the adoption of a listener. *)
Definition is_new_entry (e : event) : bool :=
  match e with
  | Popen _ _ _ => true
  | Log _ (MsgPortInUse _ _ _) => true
  | _ => false
  end.

(** What belongs to the services other than [name] is kept, and so are
    all health records. *)
Definition others_kept (name : string) (g g' : Guardian) : Prop :=
  (forall other, other <> name ->
     services g' !! other = services g !! other /\
     backoff_delays g' !! other = backoff_delays g !! other) /\
  health_status g' = health_status g.

(** The tracked services are what they were. *)
Definition same_services (g g' : Guardian) : Prop := services g' = services g.

Definition no_process_action (e : event) : Prop := is_process_action e = false.

(** The pause of [start_all_services] between two launches:
    [await asyncio.sleep(3)]. *)
Definition is_spacing (e : event) : bool :=
  match e with
  | Sleep seconds => seconds =? 3
  | _ => false
  end.

Definition no_spacing (e : event) : Prop := is_spacing e = false.

Definition spacings (t : list event) : nat :=
  length (filter (fun e => is_spacing e = true) t).

(** Entries are only removed, and only those of the services [names]. *)
Definition only_removed (names : list string) (g g' : Guardian) : Prop :=
  forall name,
    services g' !! name = services g !! name \/
    (name ∈ names /\ services g' !! name = None).

(** Entries are only written for the services [names]. *)
Definition only_written (names : list string) (g g' : Guardian) : Prop :=
  forall name, name ∉ names -> services g' !! name = services g !! name.

(** ** More of the module: [get_service_status] and [_find_venv_python] *)

(** A value of the dict [get_service_status] returns.  ['start_time'] is
    the ISO text of the time in the code; the time itself stands for it
    here. *)
Record ServiceStatus : Type := {
  status_running : bool;
  status_pid : Z;
  status_port : Z;
  status_started_by : StartedBy;
  status_start_time : option Z;
  status_restart_count : Z
}.

(** The loop of [get_service_status].  The code iterates over
    [self.services.items()], that is, in the order in which the entries
    were inserted; the map of the store does not keep that order, so the
    keys in their order are the argument [keys]. *)
Fixpoint get_service_status_from (os : OS) (keys : list string)
    (status : gmap string ServiceStatus) : M (gmap string ServiceStatus) :=
  match keys with
  | [] => ret status
  | service_name :: rest =>
      g <- get ;;
      match services g !! service_name with
      | None => get_service_status_from os rest status
      | Some info =>
          is_running <- is_service_running os service_name ;;
          get_service_status_from os rest
            (<[service_name :=
                 {| status_running := is_running;
                    status_pid := pid info;
                    status_port := port info;
                    status_started_by := started_by info;
                    status_start_time := Some (start_time info);
                    status_restart_count := default 0 (restart_count info) |}]>
               status)
      end
  end.

Definition get_service_status (os : OS) (keys : list string)
    : M (gmap string ServiceStatus) :=
  get_service_status_from os keys ∅.

(** What a status says of the entry it was made from, the probes of the
    operating system having been made at the calls [first], ..., [next - 1]. *)
Definition status_of_entry (os : OS) (first next : nat) (info : ServiceInfo)
    (st : ServiceStatus) : Prop :=
  status_pid st = pid info /\
  status_port st = port info /\
  status_started_by st = started_by info /\
  status_start_time st = Some (start_time info) /\
  status_restart_count st = default 0 (restart_count info) /\
  (status_running st = true ->
   pid info <> 0 /\
   exists n, (first <= n < next)%nat /\
     process_is_running os n (pid info) = Ok true).




(** ** More sample systems *)

(** A machine whose processes ignore [terminate()]: the wait of 10
    seconds times out, the wait after [kill()] returns.  Nothing listens,
    the scripts are installed and a spawn gives pid 5000. *)
Definition stubborn_os : OS :=
  {| net_connections := fun _ => Ok [];
     process_is_running := fun _ _ => Ok true;
     process_lookup := fun _ _ => Ok tt;
     process_terminate := fun _ _ => Ok tt;
     process_wait := fun _ _ timeout =>
       if timeout =? 10 then Raised TimeoutExpired else Ok tt;
     process_kill := fun _ _ => Ok tt;
     path_exists := fun _ _ _ => true;
     subprocess_Popen := fun _ _ _ _ => Ok 5000;
     http_get := fun _ _ _ => Raised (OtherError "ClientConnectorError");
     datetime_now := fun n => Z.of_nat n |}.

(** The guardian after [start_all_services] on [fresh_os]: the five
    services are tracked. *)
Definition running_guardian : Guardian :=
  store (start_all_services fresh_os STARTUP_ORDER fresh_guardian).

(** The entry of [tracking_guardian]. *)
Definition tracked_entry : ServiceInfo :=
  {| pid := 4242; port := 8001; process := Some 4242;
     started_by := guardian; start_time := 3;
     restart_count := Some 1; last_restart := Some 7 |}.

(** A machine whose processes survive [kill()]: every wait times out. *)
Definition unkillable_os : OS :=
  {| net_connections := fun _ => Ok [];
     process_is_running := fun _ _ => Ok true;
     process_lookup := fun _ _ => Ok tt;
     process_terminate := fun _ _ => Ok tt;
     process_wait := fun _ _ _ => Raised TimeoutExpired;
     process_kill := fun _ _ => Ok tt;
     path_exists := fun _ _ _ => true;
     subprocess_Popen := fun _ _ _ _ => Ok 5000;
     http_get := fun _ _ _ => Raised (OtherError "ClientConnectorError");
     datetime_now := fun n => Z.of_nat n |}.

(** * Properties *)

(** ** Running computations *)

Lemma bind_inv {A B} (m : M A) (k : A -> M B) g r g' t :
  bind m k g = (r, g', t) ->
  (exists a g1 t1 t2,
      m g = (Ok a, g1, t1) /\ k a g1 = (r, g', t2) /\ t = t1 ++ t2) \/
  (exists e, m g = (Raised e, g', t) /\ r = Raised e).
Proof.
  unfold bind. destruct (m g) as [[[a|e] g1] t1].
  - destruct (k a g1) as [[r2 g2] t2] eqn:Hk. intros [= <- <- <-].
    left. by exists a, g1, t1, t2.
  - intros [= <- <- <-]. right. by exists e.
Qed.

Lemma bind_Ok {A B} (m : M A) (k : A -> M B) g a g1 t1 :
  m g = (Ok a, g1, t1) ->
  bind m k g = (outcome (k a g1), store (k a g1), t1 ++ events (k a g1)).
Proof.
  intros H. unfold bind. rewrite H. by destruct (k a g1) as [[r2 g2] t2].
Qed.

Lemma bind_Raised {A B} (m : M A) (k : A -> M B) g e g1 t1 :
  m g = (Raised e, g1, t1) -> bind m k g = (Raised e, g1, t1).
Proof. intros H. unfold bind. by rewrite H. Qed.

Lemma try_except_inv {A} (body : M A) classes handler g r g' t :
  try_except body classes handler g = (r, g', t) ->
  (body g = (r, g', t) /\ forall e, r = Raised e -> classes e = false) \/
  (exists e g1 t1 t2,
      body g = (Raised e, g1, t1) /\ classes e = true /\
      handler e g1 = (r, g', t2) /\ t = t1 ++ t2).
Proof.
  unfold try_except. destruct (body g) as [[[a|e] g1] t1].
  - intros [= <- <- <-]. left. split; [done | by intros e [=]].
  - destruct (classes e) eqn:Hc.
    + destruct (handler e g1) as [[r2 g2] t2] eqn:Hh. intros [= <- <- <-].
      right. by exists e, g1, t1, t2.
    + intros [= <- <- <-]. left. split; [done | by intros e' [= <-]].
Qed.

Lemma result_eta {A} (r : result A * Guardian * list event) :
  r = (outcome r, store r, events r).
Proof. by destruct r as [[? ?] ?]. Qed.

(** ** What a computation respects

    A relation between the stores before and after, a property of every
    event emitted and a property of every exception raised, each carried
    through sequencing and exception handling. *)

Section Respects.

Variable os : OS.
Variable R : Guardian -> Guardian -> Prop.
Variable P : event -> Prop.
Variable E : exn -> Prop.
Context `{!Frame R}.

Abbreviation respects := (respects R P E).

Lemma respects_ret {A} (a : A) : respects (ret a).
Proof.
  intros g r g' t [= <- <- <-]. split; [apply frame_refl | by split].
Qed.

Lemma respects_get : respects get.
Proof.
  intros g r g' t [= <- <- <-]. split; [apply frame_refl | by split].
Qed.

Lemma respects_modify f : (forall g, R g (f g)) -> respects (modify f).
Proof. intros Hf g r g' t [= <- <- <-]. split; [apply Hf | by split]. Qed.

Lemma respects_emit e : P e -> respects (emit e).
Proof.
  intros He g r g' t [= <- <- <-].
  split; [apply frame_refl | split; [by constructor | done]].
Qed.

Lemma respects_log lv m : P (Log lv m) -> respects (log lv m).
Proof. apply respects_emit. Qed.

Lemma respects_sleep s : P (Sleep s) -> respects (sleep s).
Proof. apply respects_emit. Qed.

Lemma respects_call {A} (f : OS -> nat -> result A) :
  (forall n e, f os n = Raised e -> E e) -> respects (call os f).
Proof.
  intros Hf g r g' t [= <- <- <-].
  split; [apply frame_tick | split; [done | eauto]].
Qed.

Lemma respects_ask {A} (f : OS -> nat -> A) : respects (ask os f).
Proof.
  intros g r g' t [= <- <- <-]. split; [apply frame_tick | by split].
Qed.

Lemma respects_now : respects (now os).
Proof. apply respects_ask. Qed.

Lemma respects_result_of {A} (r : result A) :
  (forall e, r = Raised e -> E e) -> respects (result_of r).
Proof.
  intros Hr g r' g' t [= <- <- <-]. split; [apply frame_refl | by split].
Qed.

Lemma respects_bind {A B} (m : M A) (k : A -> M B) :
  respects m -> (forall a, respects (k a)) -> respects (bind m k).
Proof.
  intros Hm Hk g r g' t H.
  apply bind_inv in H as [(a & g1 & t1 & t2 & H1 & H2 & ->)|(e & H1 & ->)].
  - apply Hm in H1 as (? & ? & _). apply Hk in H2 as (? & ? & ?).
    split; [by eapply frame_trans | split; [by apply Forall_app_2 | done]].
  - apply Hm in H1 as (? & ? & He). repeat split; [done..|].
    intros e' [= <-]. by apply He.
Qed.

Lemma respects_try_except {A} (body : M A) classes handler :
  respects body -> (forall e, respects (handler e)) ->
  respects (try_except body classes handler).
Proof.
  intros Hb Hh g r g' t H.
  apply try_except_inv in H as [[H _]|(e & g1 & t1 & t2 & H1 & _ & H2 & ->)].
  - by apply Hb in H.
  - apply Hb in H1 as (? & ? & _). apply Hh in H2 as (? & ? & ?).
    split; [by eapply frame_trans | split; [by apply Forall_app_2 | done]].
Qed.

Lemma respects_for_each {A} (l : list A) (body : A -> M unit) :
  (forall x, respects (body x)) -> respects (for_each l body).
Proof.
  intros Hb. induction l as [|x l IH]; simpl.
  - apply respects_ret.
  - apply respects_bind; [apply Hb | by intros _].
Qed.

Lemma respects_while_true fuel (body : M unit) :
  respects body -> respects (while_true fuel body).
Proof.
  intros Hb. induction fuel as [|n IH]; simpl.
  - apply respects_ret.
  - apply respects_bind; [done | by intros _].
Qed.

End Respects.

(** ** The supervisor leaves the monitor alone

    [is_port_in_use], [is_service_running], [start_service] and
    [stop_service] change neither the backoff delays nor the health
    records, and emit none of the events that [steps] and [waits]
    observe. *)

#[local] Instance same_monitor_frame : Frame same_monitor.
Proof.
  split; unfold same_monitor.
  - done.
  - intros g1 g2 g3 (? & ? & ? & ?) (? & ? & ? & ?). repeat split; congruence.
  - done.
Qed.

Ltac respects_rule :=
  first
    [ apply respects_bind
    | apply respects_try_except
    | apply respects_ret
    | apply respects_get
    | apply respects_now
    | apply respects_ask
    | apply respects_log
    | apply respects_sleep
    | apply respects_emit
    | apply respects_modify
    | apply respects_call
    | apply respects_result_of
    | apply respects_for_each
    | apply respects_while_true ].

Ltac respects_auto :=
  unfold supervisor, probe;
  repeat match goal with
         | |- Frame _ => apply _
         | |- forall _, respects _ _ _ _ => intros ?
         | H : forall x, respects _ _ _ _ |- respects _ _ _ _ => apply H
         | |- respects _ _ _ _ =>
             first [assumption | progress cbv zeta | respects_rule | case_match]
         end.

Section Supervisor.

Variable os : OS.

Lemma is_port_in_use_supervisor p : supervisor (is_port_in_use os p).
Proof. unfold is_port_in_use. respects_auto; done. Qed.

Lemma is_service_running_supervisor name : supervisor (is_service_running os name).
Proof. unfold is_service_running. respects_auto; done. Qed.

Lemma start_service_supervisor config : supervisor (start_service os config).
Proof.
  pose proof (is_port_in_use_supervisor (cfg_port config)).
  pose proof (is_service_running_supervisor (cfg_name config)).
  unfold start_service. respects_auto; done.
Qed.

Lemma stop_service_supervisor name : supervisor (stop_service os name).
Proof. unfold stop_service. respects_auto; done. Qed.

End Supervisor.

(** ** Probes

    [is_port_in_use] and [is_service_running] only look: they emit no
    event and change nothing but the call counter. *)

#[local] Instance same_store_frame : Frame same_store.
Proof.
  split; unfold same_store.
  - split; [done | apply frame_refl].
  - intros g1 g2 g3 [? ?] [? ?]. split; [congruence | by eapply frame_trans].
  - split; [done | apply frame_tick].
Qed.

Lemma no_event_nil t : Forall no_event t -> t = [].
Proof. destruct t as [|e t]; [done | by inversion 1]. Qed.

Section Probes.

Variable os : OS.

Lemma is_port_in_use_probe p : probe (is_port_in_use os p).
Proof. unfold is_port_in_use. respects_auto; done. Qed.

Lemma is_service_running_probe name : probe (is_service_running os name).
Proof. unfold is_service_running. respects_auto; done. Qed.

Lemma is_port_in_use_eq p g conns :
  net_connections os (clock g) = Ok conns ->
  is_port_in_use os p g = (Ok (first_listener p conns), tick g, []).
Proof. intros H. unfold is_port_in_use, bind, call. by rewrite H. Qed.

Lemma is_service_running_eta name g :
  is_service_running os name g =
    (outcome (is_service_running os name g),
     store (is_service_running os name g), []).
Proof.
  rewrite (result_eta (is_service_running os name g)) at 1.
  destruct (is_service_running_probe name g _ _ _ (result_eta _)) as (_ & Ht & _).
  by rewrite (no_event_nil _ Ht).
Qed.

Lemma is_service_running_store name g :
  same_store g (store (is_service_running os name g)).
Proof.
  by destruct (is_service_running_probe name g _ _ _ (result_eta _)) as (? & _).
Qed.

End Probes.

(** ** The process supervisor *)

#[local] Arguments is_port_in_use : simpl never.
#[local] Arguments is_service_running : simpl never.
#[local] Arguments start_service : simpl never.
#[local] Arguments stop_service : simpl never.

Section ServiceManager.

Variable os : OS.

Lemma stop_service_untracked name g :
  services g !! name = None ->
  stop_service os name g = (Ok false, g, [Log WARNING (MsgNotTracked name)]).
Proof. intros H. unfold stop_service, bind, get. by rewrite H. Qed.

Lemma stop_service_no_such_process name g info :
  services g !! name = Some info -> pid info <> 0 ->
  process_lookup os (clock g) (pid info) = Raised NoSuchProcess ->
  stop_service os name g =
    (Ok false, tick g, [Log ERROR (MsgFailedStop name NoSuchProcess)]).
Proof.
  intros H Hp Hl. unfold stop_service, bind, get. rewrite H.
  apply Z.eqb_neq in Hp. rewrite Hp.
  unfold try_except, bind, call. by rewrite Hl.
Qed.

(** C3, as the code has it: [stop_service] on a name that is not tracked
    returns [False] and changes nothing; on a tracked name whose pid no
    longer exists ([psutil.Process(pid)] raises NoSuchProcess) it returns
    [False] as well and keeps the entry. *)
Theorem stop_service_untracked_or_gone name g :
  (services g !! name = None ->
   outcome (stop_service os name g) = Ok false /\
   store (stop_service os name g) = g) /\
  (forall info,
     services g !! name = Some info -> pid info <> 0 ->
     process_lookup os (clock g) (pid info) = Raised NoSuchProcess ->
     outcome (stop_service os name g) = Ok false /\
     services (store (stop_service os name g)) = services g).
Proof.
  split.
  - intros H. by rewrite stop_service_untracked.
  - intros info H Hp Hl. by rewrite (stop_service_no_such_process _ _ info).
Qed.




End ServiceManager.

(** ** The health monitor *)

#[local] Arguments check_health : simpl never.
#[local] Arguments restart_service : simpl never.

Lemma silent_wait_of name e : silent e -> wait_of name e = None.
Proof. unfold silent. by destruct e as [lv []| | | | | |]. Qed.

Lemma silent_steps t : Forall silent t -> steps t = [].
Proof.
  unfold steps. induction 1 as [|e t He _ IH]; [done |]. cbn. by rewrite He.
Qed.

Lemma silent_waits name t : Forall silent t -> waits name t = [].
Proof.
  unfold waits. induction 1 as [|e t He _ IH]; [done |].
  cbn. by rewrite (silent_wait_of _ _ He).
Qed.

Lemma steps_app t1 t2 : steps (t1 ++ t2) = steps t1 ++ steps t2.
Proof. apply omap_app. Qed.

Lemma waits_app name t1 t2 : waits name (t1 ++ t2) = waits name t1 ++ waits name t2.
Proof. apply omap_app. Qed.

Section HealthMonitor.

Variable os : OS.

Ltac run_check_health H :=
  unfold check_health, try_except, bind, emit, call, result_of, now, ask,
    modify, log, ret in H;
  cbn in H;
  repeat (case_match; simplify_eq/=).

(** What a health check does to the monitor: nothing to the tracked
    services; the backoff delay of the service becomes [base_backoff] when
    the check returns [True] and is left alone otherwise; one request. *)
Lemma check_health_effect config g r g' t :
  check_health os config g = (r, g', t) ->
  services g' = services g /\
  backoff_delays g' =
    (if returned_true r
     then <[cfg_name config := base_backoff]> (backoff_delays g)
     else backoff_delays g) /\
  steps t = [HealthCheck (cfg_port config)
               (default "/health" (cfg_health_endpoint config))] /\
  forall name, waits name t = [].
Proof.
  intros H. run_check_health H; done.
Qed.

Lemma check_health_not_200 config g response :
  http_get os (clock g) (cfg_port config)
    (default "/health" (cfg_health_endpoint config)) = Ok response ->
  resp_status response <> 200 ->
  check_health os config g =
    (Ok None, tick g,
     [HttpGet (cfg_port config) (default "/health" (cfg_health_endpoint config))]).
Proof.
  intros Hget Hstatus. apply Z.eqb_neq in Hstatus.
  unfold check_health, try_except, bind, emit, call. cbn.
  by rewrite Hget, Hstatus.
Qed.

(** [check_health] returns [True] only for a 200 response whose JSON body
    is a dict with ["status": "healthy"]. *)
Lemma check_health_true config g g' t :
  check_health os config g = (Ok (Some true), g', t) ->
  exists response data,
    http_get os (clock g) (cfg_port config)
      (default "/health" (cfg_health_endpoint config)) = Ok response /\
    resp_status response = 200 /\
    resp_json response = Ok data /\
    exists fields, data = JObject fields /\
      dict_get "status" fields = Some (JString "healthy").
Proof.
  intros H. run_check_health H.
  eexists _, _. split; [reflexivity |]. split; [by apply Z.eqb_eq |].
  split; [eassumption |].
  unfold py_get in *. repeat (case_match; simplify_eq/=).
  eexists. split; [done |].
  unfold eq_healthy in *. repeat (case_match; simplify_eq/=).
  f_equal. f_equal. by apply String.eqb_eq.
Qed.

(** Any failure of the request or of the decoding that is an [Exception]
    is turned into the result [False]. *)
Lemma check_health_faults config :
  respects any_store any_event only_Interrupt
    (check_health os config).
Proof.
  intros g r g' t H. repeat split; [by apply Forall_true |].
  intros e ->. run_check_health H; done.
Qed.

End HealthMonitor.

Section Restart.

Variable os : OS.

Lemma with_backoff_delays_id name d g :
  backoff_delays g !! name = Some d ->
  with_backoff_delays (insert name d) g = g.
Proof.
  intros H. destruct g as [root py svc hs bd ck]. unfold with_backoff_delays.
  cbn in *. by rewrite (insert_id _ _ _ H).
Qed.

Lemma get_backoff_delay_eq name g :
  get_backoff_delay name g =
    (Ok (effective_backoff name g),
     with_backoff_delays (insert name (effective_backoff name g)) g, []).
Proof.
  unfold get_backoff_delay, effective_backoff, bind, get.
  destruct (backoff_delays g !! name) as [d|] eqn:H; cbn.
  - by rewrite (with_backoff_delays_id _ _ _ H).
  - done.
Qed.

Lemma effective_backoff_recorded name g :
  effective_backoff name
    (with_backoff_delays (insert name (effective_backoff name g)) g) =
  effective_backoff name g.
Proof. unfold effective_backoff at 1. cbn. by rewrite lookup_insert_eq. Qed.

(** [restart_service], step by step. *)
Lemma restart_service_unfold config g :
  restart_service os config g =
    let name := cfg_name config in
    let delay := effective_backoff name g in
    let pre := [Log INFO (MsgWaitingBeforeRestart delay name); Sleep delay] in
    match stop_service os name (with_backoff_delays (insert name delay) g) with
    | (Raised e, g1, t1) => (Raised e, g1, pre ++ t1)
    | (Ok _, g1, t1) =>
        match start_service os config g1 with
        | (Raised e, g2, t2) => (Raised e, g2, pre ++ t1 ++ t2)
        | (Ok false, g2, t2) => (Ok false, g2, pre ++ t1 ++ t2)
        | (Ok true, g2, t2) =>
            (Ok true, record_restart os name g2,
             pre ++ t1 ++ t2 ++
             [Log INFO (MsgIncreasedBackoff name
                (Z.min (effective_backoff name g2 * 2) max_backoff))])
        end
    end.
Proof.
  unfold restart_service, bind. rewrite get_backoff_delay_eq.
  unfold log, sleep, emit. cbn -[stop_service start_service].
  destruct (stop_service os _ _) as [[[stopped|e] g1] t1]; [| done].
  destruct (start_service os config g1) as [[[[|]|e] g2] t2]; [| | done].
  - unfold record_restart, increase_backoff, bind, get, modify, log, emit, now,
      ask, ret, effective_backoff. cbn.
    destruct (services g2 !! cfg_name config); cbn; by rewrite ?app_nil_r.
  - cbn. by rewrite ?app_nil_r.
Qed.

Ltac run_supervisor H :=
  unfold start_service, stop_service, is_port_in_use, is_service_running,
    try_except, bind, get, modify, emit, log, sleep, call, ask, now, ret in H;
  cbn in H;
  repeat (case_match; simplify_eq/=).

Lemma start_service_false config g g' t :
  start_service os config g = (Ok false, g', t) -> services g' = services g.
Proof. intros H. run_supervisor H; done. Qed.

Lemma start_service_true config g g' t :
  start_service os config g = (Ok true, g', t) ->
  is_Some (services g' !! cfg_name config).
Proof.
  intros H. run_supervisor H; rewrite ?lookup_insert_eq; eauto.
Qed.


Lemma stop_service_services name g r g' t :
  stop_service os name g = (r, g', t) ->
  services g' = services g \/ services g' = delete name (services g).
Proof. intros H. run_supervisor H; auto. Qed.

End Restart.

Section Claims.

Variable os : OS.




Lemma record_restart_backoff name g :
  backoff_delays (record_restart os name g) =
  <[name := Z.min (effective_backoff name g * 2) max_backoff]> (backoff_delays g).
Proof.
  unfold record_restart. cbn. by destruct (services g !! name).
Qed.

Lemma record_restart_services name g info :
  services g !! name = Some info ->
  services (record_restart os name g) =
  <[name := count_restart (datetime_now os (clock g)) info]> (services g).
Proof. intros H. unfold record_restart. cbn. by rewrite H. Qed.

Lemma record_restart_untracked name g :
  services g !! name = None -> services (record_restart os name g) = services g.
Proof. intros H. unfold record_restart. cbn. by rewrite H. Qed.

Lemma supervisor_backoff {A} (m : M A) g r g' t :
  supervisor m -> m g = (r, g', t) ->
  backoff_delays g' = backoff_delays g /\ steps t = [] /\
  forall name, waits name t = [].
Proof.
  intros Hm H. apply Hm in H as ((? & _) & Ht & _).
  repeat split; [done | by apply silent_steps | intros; by apply silent_waits].
Qed.

(** C9: [restart_service] waits the current backoff delay of the service
    ([base_backoff] when none is recorded), then stops the service whatever
    [stop_service] returns, then starts it and returns what [start_service]
    returned; when that is [True] the recorded delay is doubled up to
    [max_backoff], the restart counter of the entry is incremented and its
    last restart is set to the current time, and when it is [False] the
    store is left as [start_service] left it. *)
Theorem restart_service_sequence config g stopped g1 t1 success g2 t2 :
  let name := cfg_name config in
  let delay := effective_backoff name g in
  stop_service os name (with_backoff_delays (insert name delay) g) =
    (Ok stopped, g1, t1) ->
  start_service os config g1 = (Ok success, g2, t2) ->
  let r := restart_service os config g in
  outcome r = Ok success /\
  events r =
    [Log INFO (MsgWaitingBeforeRestart delay name); Sleep delay] ++ t1 ++ t2 ++
    (if success
     then [Log INFO (MsgIncreasedBackoff name (Z.min (delay * 2) max_backoff))]
     else []) /\
  if success then
    backoff_delays (store r) !! name = Some (Z.min (delay * 2) max_backoff) /\
    exists info,
      services g2 !! name = Some info /\
      restart_counter name (store r) = Some (default 0 (restart_count info) + 1) /\
      last_restart_time name (store r) = Some (datetime_now os (clock g2))
  else store r = g2.
Proof.
  intros name delay Hstop Hstart r. subst r name delay.
  rewrite restart_service_unfold. cbn zeta.
  rewrite Hstop, Hstart.
  destruct (supervisor_backoff _ _ _ _ _ (stop_service_supervisor os _) Hstop)
    as (Hb1 & _).
  destruct (supervisor_backoff _ _ _ _ _ (start_service_supervisor os config) Hstart)
    as (Hb2 & _).
  assert (effective_backoff (cfg_name config) g2 =
          effective_backoff (cfg_name config) g) as Hd.
  { unfold effective_backoff at 1. rewrite Hb2, Hb1. cbn.
    by rewrite lookup_insert_eq. }
  destruct success; cbn -[record_restart].
  - rewrite Hd. repeat split.
    + by rewrite record_restart_backoff, Hd, lookup_insert_eq.
    + destruct (start_service_true os _ _ _ _ Hstart) as [info Hinfo].
      exists info. split; [done |].
      unfold restart_counter, last_restart_time.
      rewrite (record_restart_services _ _ _ Hinfo), lookup_insert_eq. done.
  - by rewrite app_nil_r.
Qed.

End Claims.

(** ** Backoff along a history *)

Section Backoff.

Variable os : OS.

Lemma backoff_schedule_S k :
  backoff_schedule (S k) = Z.min (backoff_schedule k * 2) max_backoff.
Proof.
  unfold backoff_schedule, base_backoff, max_backoff.
  rewrite Nat2Z.inj_succ, Z.pow_succ_r by lia.
  assert (0 < 2 ^ Z.of_nat k) by (apply Z.pow_pos_nonneg; lia). lia.
Qed.

Lemma backoff_schedule_ceiling k : (6 <= k)%nat -> backoff_schedule k = max_backoff.
Proof.
  intros Hk. unfold backoff_schedule, base_backoff, max_backoff.
  assert (2 ^ 6 <= 2 ^ Z.of_nat k) by (apply Z.pow_le_mono_r; lia). lia.
Qed.

Lemma wait_of_restart name delay n lv :
  wait_of name (Log lv (MsgWaitingBeforeRestart delay n)) =
  if String.eqb n name then Some delay else None.
Proof. done. Qed.

Lemma backoff_lookup_insert name n d (delays : gmap string Z) :
  default base_backoff (<[n := d]> delays !! name) =
  if String.eqb n name then d else default base_backoff (delays !! name).
Proof.
  destruct (String.eqb_spec n name) as [->|Hne].
  - by rewrite lookup_insert_eq.
  - by rewrite lookup_insert_ne.
Qed.

Lemma effective_backoff_insert name n d g :
  effective_backoff name (with_backoff_delays (insert n d) g) =
  if String.eqb n name then d else effective_backoff name g.
Proof.
  unfold effective_backoff. cbn. destruct (String.eqb_spec n name) as [->|Hne].
  - by rewrite lookup_insert_eq.
  - by rewrite lookup_insert_ne.
Qed.

Lemma effective_backoff_ext name g g' :
  backoff_delays g' = backoff_delays g ->
  effective_backoff name g' = effective_backoff name g.
Proof. unfold effective_backoff. by intros ->. Qed.

Lemma restart_service_backoff config name g r g' t :
  restart_service os config g = (Ok r, g', t) ->
  waits name t =
    (if String.eqb (cfg_name config) name then [effective_backoff name g] else []) /\
  effective_backoff name g' =
    next_backoff name (restart config) (Some r) (effective_backoff name g).
Proof.
  rewrite restart_service_unfold. cbn zeta.
  destruct (stop_service os _ _) as [[[stopped|e] g1] t1] eqn:Hstop; [| done].
  destruct (start_service os config g1) as [[[success|e] g2] t2] eqn:Hstart;
    [| done].
  destruct (supervisor_backoff _ _ _ _ _ (stop_service_supervisor os _) Hstop)
    as (Hb1 & _ & Hw1).
  destruct (supervisor_backoff _ _ _ _ _ (start_service_supervisor os config) Hstart)
    as (Hb2 & _ & Hw2).
  assert (backoff_delays g2 =
          backoff_delays (with_backoff_delays
            (insert (cfg_name config) (effective_backoff (cfg_name config) g)) g))
    as Hb by (by rewrite Hb2, Hb1).
  pose proof (effective_backoff_ext name _ _ Hb) as Hname.
  pose proof (effective_backoff_ext (cfg_name config) _ _ Hb) as Hself.
  rewrite effective_backoff_insert in Hname, Hself.
  rewrite String.eqb_refl in Hself.
  assert (forall tail, Forall silent tail ->
            waits name
              ([Log INFO (MsgWaitingBeforeRestart
                  (effective_backoff (cfg_name config) g) (cfg_name config));
                Sleep (effective_backoff (cfg_name config) g)] ++ t1 ++ t2 ++ tail) =
            if String.eqb (cfg_name config) name
            then [effective_backoff name g] else []) as Hwaits.
  { intros tail Htail. rewrite !waits_app, Hw1, Hw2, (silent_waits _ _ Htail).
    cbn. destruct (String.eqb_spec (cfg_name config) name) as [->|]; done. }
  destruct success; intros [= <- <- <-]; cbn [next_backoff returned_true].
  - split; [apply Hwaits; by repeat constructor |].
    unfold effective_backoff at 1.
    rewrite record_restart_backoff, backoff_lookup_insert.
    fold (effective_backoff name g2). rewrite Hself, Hname.
    destruct (String.eqb_spec (cfg_name config) name) as [->|]; done.
  - split; [rewrite <- (app_nil_r t2); apply Hwaits; constructor |].
    rewrite Hname, andb_false_r.
    destruct (String.eqb_spec (cfg_name config) name) as [->|]; done.
Qed.

Lemma check_health_backoff config name g r g' t :
  check_health os config g = (Ok r, g', t) ->
  waits name t = [] /\
  effective_backoff name g' =
    next_backoff name (check config) r (effective_backoff name g).
Proof.
  intros H. apply check_health_effect in H as (_ & Hb & _ & Hw).
  split; [done |]. cbn [next_backoff].
  destruct (returned_true (Ok r)).
  - unfold effective_backoff at 1. rewrite Hb, backoff_lookup_insert, andb_true_r.
    by destruct (String.eqb (cfg_name config) name).
  - rewrite andb_false_r. by apply effective_backoff_ext.
Qed.

Lemma run_op_backoff o name g r g' t :
  run_op os o g = (Ok r, g', t) ->
  waits name t = (if is_restart_of name o then [effective_backoff name g] else []) /\
  effective_backoff name g' = next_backoff name o r (effective_backoff name g).
Proof.
  destruct o as [config|config]; cbn [run_op is_restart_of].
  - intros H.
    apply bind_inv in H as [(b & g1 & t1 & t2 & H1 & [= <- <- <-] & ->)|(e & _ & [=])].
    rewrite app_nil_r. by apply restart_service_backoff.
  - apply check_health_backoff.
Qed.

Lemma run_ops_backoff ops name g rs g' t :
  run_ops os ops g = (Ok rs, g', t) ->
  length rs = length ops /\
  waits name t = applied_waits name (effective_backoff name g) ops rs /\
  effective_backoff name g' = final_backoff name (effective_backoff name g) ops rs.
Proof.
  revert g rs g' t. induction ops as [|o ops IH]; intros g rs g' t; cbn [run_ops].
  - by intros [= <- <- <-].
  - intros H.
    apply bind_inv in H as [(r & g1 & t1 & t2 & H1 & H2 & ->)|(e & _ & [=])].
    apply bind_inv in H2 as [(rs' & g2 & t3 & t4 & H2 & [= <- <- <-] & ->)|(e & _ & [=])].
    apply (run_op_backoff _ name) in H1 as [Hw1 He1].
    apply IH in H2 as (Hlen & Hw2 & He2).
    cbn. rewrite app_nil_r, waits_app, Hw1, Hw2, He2, He1, Hlen. done.
Qed.

Lemma applied_waits_chronic name ops rs k :
  Forall2 (chronic name) ops rs ->
  applied_waits name (backoff_schedule k) ops rs =
  map backoff_schedule (seq k (restarts_of name ops)).
Proof.
  intros H. revert k. induction H as [|o r ops rs Ho _ IH]; intros k; [done |].
  cbn [applied_waits restarts_of].
  destruct o as [c|c]; cbn [is_restart_of next_backoff chronic] in *.
  - destruct (String.eqb_spec (cfg_name c) name) as [Heq|Hne].
    + rewrite (Ho Heq). cbn. by rewrite <- backoff_schedule_S, IH.
    + cbn. apply IH.
  - destruct (String.eqb_spec (cfg_name c) name) as [Heq|Hne]; [| apply IH].
    specialize (Ho Heq). destruct r as [[|]|]; [done | apply IH..].
Qed.

Lemma applied_waits_failed name config n d :
  cfg_name config = name ->
  applied_waits name d (replicate n (restart config)) (replicate n (Some false)) =
    replicate n d /\
  final_backoff name d (replicate n (restart config)) (replicate n (Some false)) = d.
Proof.
  intros <-. induction n as [|n [IH1 IH2]]; [done |].
  cbn. rewrite String.eqb_refl. cbn. by rewrite IH1, IH2.
Qed.

End Backoff.

Section BackoffClaims.

Variable os : OS.

(** C1: along a history in which every restart of the service returned
    [True] and no health check of it did, started from the floor, the
    delays the restarts of the service waited are
    [backoff_schedule 0, backoff_schedule 1, ...], that is
    5, 10, 20, 40, 80, 160, 300, 300, ...; and a health check that returns
    [True] records the floor again. *)
Theorem backoff_sequence config ops g rs g' t :
  let name := cfg_name config in
  effective_backoff name g = base_backoff ->
  run_ops os ops g = (Ok rs, g', t) ->
  Forall2 (chronic name) ops rs ->
  waits name t = map backoff_schedule (seq 0 (restarts_of name ops)) /\
  map backoff_schedule (seq 0 8) = [5; 10; 20; 40; 80; 160; 300; 300] /\
  (forall k, (6 <= k)%nat -> backoff_schedule k = 300) /\
  (forall g1 g2 t2,
     check_health os config g1 = (Ok (Some true), g2, t2) ->
     backoff_delays g2 !! name = Some 5).
Proof.
  intros name Hfloor Hrun Hchronic. repeat split.
  - apply (run_ops_backoff _ _ name) in Hrun as (_ & -> & _).
    rewrite Hfloor. by apply (applied_waits_chronic name ops rs 0%nat).
  - apply backoff_schedule_ceiling.
  - intros g1 g2 t2 H. apply check_health_effect in H as (_ & -> & _).
    cbn. by rewrite lookup_insert_eq.
Qed.

Lemma restart_service_failed_entry config g g' t :
  restart_service os config g = (Ok false, g', t) ->
  forall info,
    services g' !! cfg_name config = Some info ->
    services g !! cfg_name config = Some info.
Proof.
  rewrite restart_service_unfold. cbn zeta.
  destruct (stop_service os _ _) as [[[stopped|e] g1] t1] eqn:Hstop; [| done].
  destruct (start_service os config g1) as [[[[|]|e] g2] t2] eqn:Hstart; [done | | done].
  intros [= <- <-] info. rewrite (start_service_false _ _ _ _ _ Hstart).
  apply stop_service_services in Hstop as [-> | ->]; [done |].
  by rewrite lookup_delete_eq.
Qed.

Lemma failed_restarts_entry config n g g' t :
  run_ops os (replicate n (restart config)) g =
    (Ok (replicate n (Some false)), g', t) ->
  forall info,
    services g' !! cfg_name config = Some info ->
    services g !! cfg_name config = Some info.
Proof.
  revert g g' t. induction n as [|n IH]; intros g g' t; cbn [replicate run_ops].
  - by intros [= <- <-].
  - intros H.
    apply bind_inv in H as [(r & g1 & t1 & t2 & H1 & H2 & ->)|(e & _ & [=])].
    apply bind_inv in H2 as [(rs' & g2 & t3 & t4 & H2 & [= -> -> <- <-] & ->)|(e & _ & [=])].
    cbn [run_op] in H1.
    apply bind_inv in H1 as [(b & g3 & t5 & t6 & H1 & [= -> <- <-] & ->)|(e & _ & [=])].
    intros info Hinfo. eapply restart_service_failed_entry; [done |].
    by eapply IH.
Qed.

(** C10, as the code has it: along restarts of a service that all returned
    [False], every restart waits the same delay, the delay the next
    restart will apply is unchanged, and an entry that the service still
    has afterwards is the entry it had before, restart counter and last
    restart included. *)
Theorem failed_restarts_keep_backoff config n g g' t :
  let name := cfg_name config in
  run_ops os (replicate n (restart config)) g =
    (Ok (replicate n (Some false)), g', t) ->
  waits name t = replicate n (effective_backoff name g) /\
  effective_backoff name g' = effective_backoff name g /\
  forall info,
    services g' !! name = Some info -> services g !! name = Some info.
Proof.
  intros name Hrun.
  destruct (applied_waits_failed name config n (effective_backoff name g) eq_refl)
    as [Hw Hf].
  pose proof (run_ops_backoff os _ name _ _ _ _ Hrun) as (_ & -> & ->).
  repeat split; [done.. |]. by eapply failed_restarts_entry.
Qed.

End BackoffClaims.

(** ** The orchestration loop *)

#[local] Instance any_store_frame : Frame any_store.
Proof. by split. Qed.

Lemma fault_raised {A} (r : result A) e : fault r -> r = Raised e -> only_Exception e.
Proof. by intros Hr ->. Qed.

Ltac fault_solve Hos :=
  intros; cbv beta in *;
  try (eapply fault_raised; [| eassumption]);
  first
    [ apply (fault_net_connections _ Hos)
    | apply (fault_process_is_running _ Hos)
    | apply (fault_process_lookup _ Hos)
    | apply (fault_process_terminate _ Hos)
    | apply (fault_process_wait _ Hos)
    | apply (fault_process_kill _ Hos)
    | apply (fault_subprocess_Popen _ Hos)
    | apply (fault_http_get _ Hos)
    | done ].

Section Loop.

Variable os : OS.
Variable registry : list Config.

Lemma restart_service_steps config g r g' t :
  restart_service os config g = (r, g', t) ->
  steps t = [Restart (cfg_name config)].
Proof.
  rewrite restart_service_unfold. cbn zeta.
  destruct (stop_service os _ _) as [[stopped g1] t1] eqn:Hstop.
  destruct (supervisor_backoff _ _ _ _ _ (stop_service_supervisor os _) Hstop)
    as (_ & Hs1 & _).
  unfold steps in *.
  destruct stopped as [stopped|e];
    [| intros [= <- <- <-]; cbn; by rewrite Hs1].
  destruct (start_service os config g1) as [[started g2] t2] eqn:Hstart.
  destruct (supervisor_backoff _ _ _ _ _ (start_service_supervisor os config) Hstart)
    as (_ & Hs2 & _).
  unfold steps in *.
  destruct started as [[|]|e]; intros [= <- <- <-]; cbn;
    by rewrite !omap_app, Hs1, Hs2.
Qed.




End Loop.

Section Availability.

Variable os : OS.
Variable registry : list Config.
Hypothesis Hos : service_faults_only os.

Lemma is_port_in_use_faults p : faults (is_port_in_use os p).
Proof. unfold faults, is_port_in_use. respects_auto; fault_solve Hos. Qed.

Lemma is_service_running_faults name : faults (is_service_running os name).
Proof. unfold faults, is_service_running. respects_auto; fault_solve Hos. Qed.

Lemma start_service_faults config : faults (start_service os config).
Proof.
  pose proof (is_port_in_use_faults (cfg_port config)).
  pose proof (is_service_running_faults (cfg_name config)).
  unfold faults in *. unfold start_service. respects_auto; fault_solve Hos.
Qed.

Lemma stop_service_faults name : faults (stop_service os name).
Proof. unfold faults, stop_service. respects_auto; fault_solve Hos. Qed.

(** Under [service_faults_only], a health check always returns. *)
Lemma check_health_returns config g :
  exists v g' t, check_health os config g = (Ok v, g', t).
Proof.
  destruct (check_health os config g) as [[[v|e] g'] t] eqn:H; [by eauto |].
  exfalso.
  assert (is_Exception e = false) as He.
  { by destruct (check_health_faults os config _ _ _ _ H) as (_ & _ & He);
      apply He. }
  unfold check_health, try_except, bind, emit, call, result_of, now, ask,
    modify, log, ret in H; cbn in H.
  repeat (case_match; simplify_eq/=);
    first
      [ match goal with
        | Hj : resp_json ?a = Raised _, Hg : http_get _ _ _ _ = Ok ?a |- _ =>
            pose proof (fault_resp_json _ Hos _ _ _ _ Hg) as Hf;
            rewrite Hj in Hf; cbn in Hf; congruence
        end
      | match goal with
        | Hg : http_get _ ?n ?p ?s = Raised _ |- _ =>
            pose proof (fault_http_get _ Hos n p s) as Hf;
            rewrite Hg in Hf; cbn in Hf; congruence
        end
      | match goal with
        | Hp : py_get ?d _ = Raised _ |- _ =>
            unfold py_get in Hp; repeat (case_match; simplify_eq/=)
        end ].
Qed.

Lemma check_health_only_faults config : faults (check_health os config).
Proof.
  intros g r g' t H. repeat split; [by apply Forall_true |].
  intros e ->. destruct (check_health_returns config g) as (v & g1 & t1 & Hv).
  congruence.
Qed.

Lemma restart_service_faults config : faults (restart_service os config).
Proof.
  pose proof (start_service_faults config).
  pose proof (stop_service_faults (cfg_name config)).
  unfold faults in *.
  unfold restart_service, get_backoff_delay, increase_backoff.
  respects_auto; fault_solve Hos.
Qed.

Lemma monitor_service_faults config : faults (monitor_service os config).
Proof.
  pose proof (is_service_running_faults (cfg_name config)).
  pose proof (check_health_only_faults config).
  pose proof (restart_service_faults config).
  unfold faults in *. unfold monitor_service. respects_auto; fault_solve Hos.
Qed.

Lemma monitor_cycle_faults : faults (monitor_cycle os registry).
Proof.
  pose proof monitor_service_faults as Hvisit. unfold faults in *.
  unfold monitor_cycle. respects_auto; fault_solve Hos.
Qed.

(** One iteration of the loop, whatever the cycle did. *)
Lemma monitor_iteration_unfold g :
  monitor_iteration os registry g =
    match monitor_cycle os registry g with
    | (Ok tt, g1, t1) => (Ok tt, g1, t1)
    | (Raised e, g1, t1) =>
        if is_Exception e
        then (Ok tt, g1, t1 ++ [Log ERROR (MsgMonitorError e); Sleep 10])
        else (Raised e, g1, t1)
    end.
Proof.
  unfold monitor_iteration, try_except.
  destruct (monitor_cycle os registry g) as [[[[]|e] g1] t1]; [done |].
  by destruct (is_Exception e).
Qed.

Lemma monitor_iteration_returns g :
  exists g' t, monitor_iteration os registry g = (Ok tt, g', t).
Proof.
  rewrite monitor_iteration_unfold.
  destruct (monitor_cycle os registry g) as [[[[]|e] g1] t1] eqn:H; [by eauto |].
  destruct (monitor_cycle_faults _ _ _ _ H) as (_ & _ & He).
  rewrite (He e eq_refl). by eauto.
Qed.

Lemma while_true_snoc fuel (body : M unit) g g1 t1 r g2 t2 :
  while_true fuel body g = (Ok tt, g1, t1) ->
  body g1 = (r, g2, t2) ->
  while_true (S fuel) body g = (r, g2, t1 ++ t2).
Proof.
  revert g t1. induction fuel as [|n IH]; intros g t1; cbn [while_true].
  - intros [= <- <-] Hb. unfold bind. rewrite Hb. destruct r as [[]|e]; cbn.
    + by rewrite app_nil_r.
    + done.
  - intros H Hb.
    apply bind_inv in H as [([] & g3 & t3 & t4 & H1 & H2 & ->)|(e & _ & [=])].
    specialize (IH _ _ H2 Hb). cbn [while_true] in IH.
    unfold bind at 1. rewrite H1, IH. by rewrite app_assoc.
Qed.

Lemma while_true_returns fuel g :
  exists g' t, while_true fuel (monitor_iteration os registry) g = (Ok tt, g', t).
Proof.
  induction fuel as [|n (g1 & t1 & IH)]; [by eexists _, _ |].
  destruct (monitor_iteration_returns g1) as (g2 & t2 & H2).
  eexists _, _. by eapply while_true_snoc.
Qed.

Lemma background_monitor_unfold fuel g :
  background_monitor os registry fuel g =
    match while_true fuel (monitor_iteration os registry) g with
    | (r, g', t) => (r, g', [Log INFO MsgMonitorStarting; Sleep 10] ++ t)
    end.
Proof.
  unfold background_monitor, bind, log, sleep, emit.
  by destruct (while_true fuel _ g) as [[r g'] t].
Qed.

(** C8: when the calls of a cycle fail with subclasses of [Exception] only,
    the loop is still running after any number of iterations, and runs one
    more; an iteration whose cycle raised [e] logs the error, sleeps 10
    seconds and ends normally, so that the next one starts. *)
Theorem background_monitor_never_stops fuel g :
  (exists g' t,
     background_monitor os registry fuel g = (Ok tt, g', t) /\
     exists g'' t',
       monitor_iteration os registry g' = (Ok tt, g'', t') /\
       background_monitor os registry (S fuel) g = (Ok tt, g'', t ++ t')) /\
  (forall g0 e g1 t1,
     monitor_cycle os registry g0 = (Raised e, g1, t1) ->
     monitor_iteration os registry g0 =
       (Ok tt, g1, t1 ++ [Log ERROR (MsgMonitorError e); Sleep 10])).
Proof.
  split.
  - destruct (while_true_returns fuel g) as (g1 & t1 & H1).
    destruct (monitor_iteration_returns g1) as (g2 & t2 & H2).
    exists g1, ([Log INFO MsgMonitorStarting; Sleep 10] ++ t1). split.
    + by rewrite background_monitor_unfold, H1.
    + exists g2, t2. split; [done |].
      rewrite background_monitor_unfold, (while_true_snoc _ _ _ _ _ _ _ _ H1 H2).
      by rewrite app_assoc.
  - intros g0 e g1 t1 H. rewrite monitor_iteration_unfold, H.
    destruct (monitor_cycle_faults _ _ _ _ H) as (_ & _ & He).
    by rewrite (He e eq_refl).
Qed.

End Availability.

(** ** The sample systems *)

(** C2: a health response whose status is not 200 (here 500) makes
    [check_health] fall off the end of its body: it returns [None], not the
    boolean [False], and records no health status; the two other branches
    return a boolean and record one. *)
Theorem check_health_non_200_returns_None :
  let r := check_health failing_os character_extraction tracking_guardian in
  http_get failing_os (clock tracking_guardian) 8001 "/health" =
    Ok {| resp_status := 500;
          resp_json := Ok (JObject [("status", JString "error")]) |} /\
  outcome r = Ok None /\
  outcome r <> Ok (Some false) /\
  health_status (store r) !! "character_extraction" = None.
Proof. vm_compute. by repeat split. Qed.

(** The same request answered by a transport error is recorded, and gives
    the boolean [False]. *)
Example check_health_transport_error :
  let r := check_health idle_os character_extraction tracking_guardian in
  outcome r = Ok (Some false) /\
  healthy <$> health_status (store r) !! "character_extraction" = Some false.
Proof. vm_compute. by split. Qed.

(** C3, against the design document: the guardian tracks
    [character_extraction] as process 4242, which no longer exists;
    [stop_service] returns [False] and keeps the entry. *)
Lemma stop_service_gone_counterexample :
  process_lookup idle_os (clock tracking_guardian) 4242 = Raised NoSuchProcess /\
  pid <$> services tracking_guardian !! "character_extraction" = Some 4242 /\
  ~ stop_removes_and_succeeds idle_os "character_extraction" tracking_guardian.
Proof.
  split; [done |]. split; [by vm_compute |].
  intros [H _]. vm_compute in H. discriminate.
Qed.

Lemma stop_service_untracked_or_gone_witness :
  (outcome (stop_service idle_os "query_engine" tracking_guardian) = Ok false /\
   store (stop_service idle_os "query_engine" tracking_guardian) = tracking_guardian) /\
  (outcome (stop_service idle_os "character_extraction" tracking_guardian) = Ok false /\
   services (store (stop_service idle_os "character_extraction" tracking_guardian)) =
     services tracking_guardian).
Proof.
  split.
  - apply (proj1 (stop_service_untracked_or_gone idle_os "query_engine"
                    tracking_guardian)).
    vm_compute. reflexivity.
  - apply (proj2 (stop_service_untracked_or_gone idle_os "character_extraction"
                    tracking_guardian)
             {| pid := 4242; port := 8001; process := Some 4242;
                started_by := guardian; start_time := 3;
                restart_count := Some 1; last_restart := Some 7 |}).
    + vm_compute. reflexivity.
    + simpl. lia.
    + reflexivity.
Defined.


(** When the spawned process has died and nothing listens, the second
    [start_service] spawns again. *)
Example start_service_respawns :
  let r1 := start_service crashing_os character_extraction fresh_guardian in
  let r2 := start_service crashing_os character_extraction (store r1) in
  outcome r1 = Ok true /\ outcome r2 = Ok true /\ spawns (events r2) = 1%nat.
Proof. vm_compute. by repeat split. Qed.






Lemma background_monitor_never_stops_witness :
  exists g' t,
    background_monitor idle_os STARTUP_ORDER 3 fresh_guardian = (Ok tt, g', t) /\
    exists g'' t',
      monitor_iteration idle_os STARTUP_ORDER g' = (Ok tt, g'', t') /\
      background_monitor idle_os STARTUP_ORDER 4 fresh_guardian =
        (Ok tt, g'', t ++ t').
Proof.
  assert (service_faults_only idle_os) as Hos by (by split).
  exact (proj1 (background_monitor_never_stops idle_os STARTUP_ORDER Hos
                  3%nat fresh_guardian)).
Defined.

Lemma restart_service_sequence_witness :
  let r := restart_service fresh_os character_extraction fresh_guardian in
  outcome r = Ok true /\
  waits "character_extraction" (events r) = [5] /\
  backoff_delays (store r) !! "character_extraction" = Some 10 /\
  restart_counter "character_extraction" (store r) = Some 1.
Proof.
  pose (g0 := with_backoff_delays (insert "character_extraction" 5) fresh_guardian).
  pose (r1 := stop_service fresh_os "character_extraction" g0).
  pose (r2 := start_service fresh_os character_extraction (store r1)).
  destruct (restart_service_sequence fresh_os character_extraction fresh_guardian
              false (store r1) (events r1) true (store r2) (events r2))
    as (Hr & Ht & Hb & info & Hinfo & Hcount & _).
  - vm_compute. reflexivity.
  - vm_compute. reflexivity.
  - cbn zeta. split; [exact Hr |]. split; [by rewrite Ht; vm_compute |].
    split; [exact Hb |].
    cbn [cfg_name character_extraction] in Hcount. rewrite Hcount.
    vm_compute in Hinfo. injection Hinfo as <-. reflexivity.
Defined.

(** C10, against the design document: the guardian tracks
    [character_extraction], restarted once, as the running process 4242,
    and the script is gone; the restart stops the process and fails to
    start it, and the entry, with its restart counter and its last
    restart, is gone. *)
Lemma failed_restart_counterexample :
  outcome (restart_service live_os character_extraction tracking_guardian) =
    Ok false /\
  restart_counter "character_extraction" tracking_guardian = Some 1 /\
  restart_counter "character_extraction"
    (store (restart_service live_os character_extraction tracking_guardian)) =
    None /\
  last_restart_time "character_extraction" tracking_guardian = Some 7 /\
  last_restart_time "character_extraction"
    (store (restart_service live_os character_extraction tracking_guardian)) =
    None /\
  ~ failed_restart_changes_nothing live_os character_extraction tracking_guardian.
Proof.
  repeat split; try (by vm_compute).
  intros H. destruct H as (_ & Hc & _); [by vm_compute |].
  vm_compute in Hc. discriminate.
Qed.

(** The delay itself, not recorded before the failed restart, is recorded
    as the floor after it. *)
Example failed_restart_records_floor :
  backoff_delays tracking_guardian !! "character_extraction" = None /\
  backoff_delays
    (store (restart_service live_os character_extraction tracking_guardian))
    !! "character_extraction" = Some 5.
Proof. by vm_compute. Qed.

Lemma failed_restarts_keep_backoff_witness :
  let r := run_ops idle_os (replicate 3 (restart character_extraction))
             tracking_guardian in
  waits "character_extraction" (events r) = [5; 5; 5] /\
  effective_backoff "character_extraction" (store r) = 5 /\
  restart_counter "character_extraction" (store r) = Some 1.
Proof.
  pose (r := run_ops idle_os (replicate 3 (restart character_extraction))
               tracking_guardian).
  destruct (failed_restarts_keep_backoff idle_os character_extraction 3
              tracking_guardian (store r) (events r))
    as (Hw & Hb & _).
  - vm_compute. reflexivity.
  - cbn zeta. fold r. split; [exact Hw |]. split; [exact Hb |].
    vm_compute. reflexivity.
Defined.

Lemma backoff_sequence_witness :
  waits "character_extraction"
    (events (run_ops busy_os sample_history fresh_guardian)) =
  [5; 10; 20; 40; 80; 160; 300; 300; 300].
Proof.
  pose (r := run_ops busy_os sample_history fresh_guardian).
  destruct (backoff_sequence busy_os character_extraction sample_history
              fresh_guardian sample_results (store r) (events r))
    as (Hw & _).
  - reflexivity.
  - vm_compute. reflexivity.
  - repeat constructor; intros _; discriminate || reflexivity.
  - refine (eq_trans Hw _). vm_compute. reflexivity.
Defined.

(** * More of the module *)

(** ** [is_port_in_use] and [is_service_running] *)

Section MoreProbes.

Variable os : OS.

Lemma first_listener_None p conns :
  port_listening p conns = false -> first_listener p conns = None.
Proof.
  induction conns as [|conn conns IH]; [done |]. cbn.
  fold (listens p conn). destruct (listens p conn); [done | apply IH].
Qed.

Lemma first_listener_split p conns :
  port_listening p conns = true ->
  exists pre conn post,
    conns = pre ++ conn :: post /\
    listens p conn = true /\
    Forall (fun c => listens p c = false) pre /\
    first_listener p conns = conn_pid conn.
Proof.
  induction conns as [|conn conns IH]; [done |]. cbn.
  fold (listens p conn). destruct (listens p conn) eqn:Hl.
  - intros _. by exists [], conn, conns.
  - cbn. intros H. destruct (IH H) as (pre & c & post & -> & Hc & Hpre & Hf).
    exists (conn :: pre), c, post. repeat split; [done | by constructor | done].
Qed.

(** X1. [is_port_in_use] answers with the pid of the first connection
    listening on the port, whether that pid is known or not, and with
    [None] when no connection listens on it; it changes nothing. *)
Theorem is_port_in_use_first_listener p g conns :
  net_connections os (clock g) = Ok conns ->
  exists o,
    is_port_in_use os p g = (Ok o, tick g, []) /\
    (port_listening p conns = false -> o = None) /\
    (port_listening p conns = true ->
     exists pre conn post,
       conns = pre ++ conn :: post /\
       listens p conn = true /\
       Forall (fun c => listens p c = false) pre /\
       o = conn_pid conn).
Proof.
  intros Hc. exists (first_listener p conns).
  split; [by apply is_port_in_use_eq |].
  split; [apply first_listener_None | apply first_listener_split].
Qed.

(** What [is_service_running] answers, case by case. *)
Lemma is_service_running_cases name g r g' t :
  is_service_running os name g = (r, g', t) ->
  t = [] /\
  services g' = services g /\
  (r = Ok true ->
   exists info,
     services g !! name = Some info /\ pid info <> 0 /\
     process_is_running os (clock g) (pid info) = Ok true) /\
  (services g !! name = None -> r = Ok false /\ g' = g) /\
  (forall e, r = Raised e -> is_NoSuchProcess_or_AccessDenied e = false).
Proof.
  intros H. unfold is_service_running, try_except, bind, get, call, ret in H.
  destruct (services g !! name) as [info|] eqn:Hinfo; cbn in H.
  - destruct (pid info =? 0) eqn:Hp; cbn in H.
    + injection H as <- <- <-. by repeat split.
    + apply Z.eqb_neq in Hp.
      destruct (process_is_running os (clock g) (pid info)) as [b|e] eqn:Hrun.
      * injection H as <- <- <-. repeat split; try done.
        intros [= ->]. by exists info.
      * destruct (is_NoSuchProcess_or_AccessDenied e) eqn:He;
          injection H as <- <- <-; repeat split; try done.
        by intros e' [= <-].
  - injection H as <- <- <-. by repeat split.
Qed.

(** X2. [is_service_running] answers [True] only for a tracked service
    whose pid the operating system reports running at that moment; for an
    untracked name it answers [False] without asking; it never raises
    NoSuchProcess or AccessDenied, emits nothing and leaves the tracked
    services alone. *)
Theorem is_service_running_sound name g r g' t :
  is_service_running os name g = (r, g', t) ->
  t = [] /\
  services g' = services g /\
  (r = Ok true ->
   exists info,
     services g !! name = Some info /\ pid info <> 0 /\
     process_is_running os (clock g) (pid info) = Ok true) /\
  (services g !! name = None -> r = Ok false /\ g' = g) /\
  (forall e, r = Raised e -> is_NoSuchProcess_or_AccessDenied e = false).
Proof. exact (is_service_running_cases name g r g' t). Qed.

End MoreProbes.

(** ** [start_service] and [stop_service] *)

Ltac run_service_manager H :=
  unfold start_service, stop_service, is_port_in_use, is_service_running,
    try_except, bind, get, modify, emit, log, sleep, call, ask, now, ret in H;
  cbn in H;
  repeat (case_match; simplify_eq/=).

Section MoreServiceManager.

Variable os : OS.

(** X3. On the spawn path, with the script present and [Popen] giving the
    process [child], [start_service] spawns exactly one process, records it
    as launched by the guardian with restart counter 0 and no last restart,
    pauses 2 seconds and returns [True]. *)
Theorem start_service_spawns config g conns child :
  net_connections os (clock g) = Ok conns ->
  if_pid (first_listener (cfg_port config) conns) = None ->
  let running := is_service_running os (cfg_name config) (tick g) in
  outcome running = Ok false ->
  path_exists os (clock (store running)) (root_path g) (cfg_path config) = true ->
  subprocess_Popen os (S (clock (store running))) (venv_python g) (root_path g)
    (cfg_path config) = Ok child ->
  let r := start_service os config g in
  outcome r = Ok true /\
  spawns (events r) = 1%nat /\
  last (events r) = Some (Sleep 2) /\
  services (store r) =
    <[cfg_name config :=
        {| pid := child; port := cfg_port config; process := Some child;
           started_by := guardian;
           start_time := datetime_now os (S (S (clock (store running))));
           restart_count := Some 0; last_restart := None |}]> (services g).
Proof.
  intros Hc Hl running Hrun Hpath Hpopen r. subst r.
  pose proof (is_service_running_store os (cfg_name config) (tick g))
    as (Hs & _ & _ & Hroot & Hpy).
  change (services (tick g)) with (services g) in Hs.
  change (root_path (tick g)) with (root_path g) in Hroot.
  change (venv_python (tick g)) with (venv_python g) in Hpy.
  fold running in Hs, Hroot, Hpy.
  unfold start_service.
  rewrite (bind_Ok _ _ _ _ _ _ (is_port_in_use_eq os _ _ _ Hc)).
  rewrite Hl. cbn -[is_service_running].
  assert (is_service_running os (cfg_name config) (tick g) =
            (Ok false, store running, [])) as Hr.
  { rewrite is_service_running_eta. fold running. by rewrite Hrun. }
  rewrite (bind_Ok _ _ _ _ _ _ Hr). cbn.
  rewrite Hroot, Hpy, Hpath. cbn.
  unfold try_except, bind, call, log, emit. cbn.
  rewrite Hpopen. cbn. by rewrite Hs.
Qed.

(** The entries after [start_service]. *)
Lemma start_service_entries config g r g' t :
  start_service os config g = (r, g', t) ->
  (forall name, name <> cfg_name config ->
     services g' !! name = services g !! name) /\
  (r = Ok true -> is_Some (services g' !! cfg_name config)) /\
  (r <> Ok true -> services g' = services g).
Proof.
  intros H. split; [| split].
  - intros name Hne. run_service_manager H; by rewrite ?lookup_insert_ne.
  - intros ->. by eapply start_service_true.
  - intros Hr. run_service_manager H; done.
Qed.


(** The entries after [stop_service]. *)
Lemma stop_service_entries name g r g' t :
  stop_service os name g = (r, g', t) ->
  (r = Ok true ->
   is_Some (services g !! name) /\ services g' = delete name (services g)) /\
  (r <> Ok true -> services g' = services g).
Proof.
  intros H. split.
  - intros ->. run_service_manager H; eauto.
  - intros Hr. run_service_manager H; done.
Qed.

(** X5. [stop_service] returns [True] exactly when it has removed the
    entry of a service that was tracked; in every other case (returning
    [False], or raising) the tracked services are what they were. *)
Theorem stop_service_outcomes name g r g' t :
  stop_service os name g = (r, g', t) ->
  (r = Ok true ->
   is_Some (services g !! name) /\ services g' = delete name (services g)) /\
  (r <> Ok true -> services g' = services g).
Proof. exact (stop_service_entries name g r g' t). Qed.

(** X6. [stop_service] sends signals to no process but the one recorded
    for the service, and kills only a process it has asked to terminate
    first. *)
Theorem stop_service_signals name g r g' t :
  stop_service os name g = (r, g', t) ->
  (forall e p, e ∈ t -> signalled e = Some p ->
     pid <$> services g !! name = Some p) /\
  (forall p, Kill p ∈ t -> Terminate p ∈ t).
Proof.
  intros H. split.
  - intros e p He Hp. run_service_manager H;
      repeat match goal with
             | Hin : _ ∈ _ :: _ |- _ => apply elem_of_cons in Hin as [->|Hin]
             | Hin : _ ∈ [] |- _ => by apply elem_of_nil in Hin
             end; simplify_eq/=; done.
  - intros p Hp. run_service_manager H;
      repeat match goal with
             | Hin : _ ∈ _ :: _ |- _ => apply elem_of_cons in Hin as [Heq|Hin]
             | Hin : _ ∈ [] |- _ => by apply elem_of_nil in Hin
             end; simplify_eq/=; set_solver.
Qed.

(** X7. A tracked process that exits within 10 seconds of [terminate()] is
    stopped gracefully: no kill is sent, the entry is removed and
    [stop_service] returns [True]. *)
Theorem stop_service_graceful name g info :
  services g !! name = Some info ->
  pid info <> 0 ->
  process_lookup os (clock g) (pid info) = Ok tt ->
  process_terminate os (S (clock g)) (pid info) = Ok tt ->
  process_wait os (S (S (clock g))) (pid info) 10 = Ok tt ->
  let r := stop_service os name g in
  outcome r = Ok true /\
  services (store r) = delete name (services g) /\
  events r =
    [Log INFO (MsgStopping name (pid info)); Terminate (pid info);
     Wait (pid info) 10; Log INFO (MsgStoppedGracefully name)].
Proof.
  intros Hinfo Hp Hl Ht Hw r. subst r. apply Z.eqb_neq in Hp.
  unfold stop_service, try_except, bind, get, call, log, emit, modify, ret.
  rewrite Hinfo, Hp. cbn. rewrite Hl. cbn. rewrite Ht. cbn. by rewrite Hw.
Qed.

(** X8. A tracked process that is still there 10 seconds after
    [terminate()] is killed and waited for 5 more seconds.  If that wait
    returns, the entry is removed and [stop_service] returns [True]; if it
    raises NoSuchProcess or AccessDenied, [stop_service] returns [False];
    if it raises anything else (the process survived the kill:
    TimeoutExpired), the exception leaves [stop_service]; in the last two
    cases the entry stays. *)
Theorem stop_service_escalates name g info :
  services g !! name = Some info ->
  pid info <> 0 ->
  process_lookup os (clock g) (pid info) = Ok tt ->
  process_terminate os (S (clock g)) (pid info) = Ok tt ->
  process_wait os (S (S (clock g))) (pid info) 10 = Raised TimeoutExpired ->
  process_kill os (S (S (S (clock g)))) (pid info) = Ok tt ->
  let r := stop_service os name g in
  Kill (pid info) ∈ events r /\
  match process_wait os (S (S (S (S (clock g))))) (pid info) 5 with
  | Ok _ => outcome r = Ok true /\ services (store r) = delete name (services g)
  | Raised e =>
      outcome r = (if is_NoSuchProcess_or_AccessDenied e then Ok false else Raised e) /\
      services (store r) = services g
  end.
Proof.
  intros Hinfo Hp Hl Ht Hw Hk r. subst r. apply Z.eqb_neq in Hp.
  unfold stop_service, try_except, bind, get, call, log, emit, modify, ret.
  rewrite Hinfo, Hp. cbn. rewrite Hl. cbn. rewrite Ht. cbn. rewrite Hw. cbn.
  rewrite Hk. cbn.
  destruct (process_wait os _ (pid info) 5) as [[]|e]; cbn.
  - split; [set_solver | done].
  - destruct (is_NoSuchProcess_or_AccessDenied e); cbn; (split; [set_solver | done]).
Qed.

(** X9. Starting a service and then stopping it, both with success, leaves
    the tracked services as they were without that service: for a service
    that was not tracked, exactly as they were. *)
Theorem start_then_stop config g g1 t1 g2 t2 :
  start_service os config g = (Ok true, g1, t1) ->
  stop_service os (cfg_name config) g1 = (Ok true, g2, t2) ->
  services g2 = delete (cfg_name config) (services g) /\
  (services g !! cfg_name config = None -> services g2 = services g).
Proof.
  intros Hstart Hstop.
  destruct (stop_service_entries _ _ _ _ _ Hstop) as [Hdel _].
  destruct (Hdel eq_refl) as [_ ->].
  destruct (start_service_entries _ _ _ _ _ Hstart) as (Hother & _ & _).
  assert (delete (cfg_name config) (services g1) =
          delete (cfg_name config) (services g)) as ->.
  { apply map_eq. intros name.
    destruct (decide (name = cfg_name config)) as [->|Hne].
    - by rewrite !lookup_delete_eq.
    - rewrite !lookup_delete_ne by done. by apply Hother. }
  split; [done |]. intros Hnone. by apply delete_id.
Qed.

End MoreServiceManager.

(** ** [check_health] *)

Section MoreHealth.

Variable os : OS.

Ltac run_health H :=
  unfold check_health, try_except, bind, emit, call, result_of, now, ask,
    modify, log, ret in H;
  cbn in H;
  repeat (case_match; simplify_eq/=).

(** X10. [check_health] returns [True] exactly when the response has
    status 200 and its JSON body is a dict whose ["status"] is the string
    ["healthy"]. *)
Theorem check_health_true_iff config g :
  outcome (check_health os config g) = Ok (Some true) <->
  exists response fields,
    http_get os (clock g) (cfg_port config)
      (default "/health" (cfg_health_endpoint config)) = Ok response /\
    resp_status response = 200 /\
    resp_json response = Ok (JObject fields) /\
    dict_get "status" fields = Some (JString "healthy").
Proof.
  split.
  - intros H. rewrite (result_eta (check_health os config g)) in H.
    destruct (check_health os config g) as [[r g'] t] eqn:Hc. cbn in H. subst r.
    apply check_health_true in Hc
      as (response & data & Hg & Hs & Hj & fields & -> & Hd).
    by exists response, fields.
  - intros (response & fields & Hg & Hs & Hj & Hd).
    unfold check_health, try_except, bind, emit, call, result_of. cbn.
    rewrite Hg. cbn. rewrite Hs. cbn. rewrite Hj. cbn. by rewrite Hd.
Qed.

(** X11. [check_health] returns [None] exactly when a response arrives
    whose status is not 200, and then records nothing: health records and
    backoff delays are what they were. *)
Theorem check_health_None_iff config g :
  (outcome (check_health os config g) = Ok None <->
   exists response,
     http_get os (clock g) (cfg_port config)
       (default "/health" (cfg_health_endpoint config)) = Ok response /\
     resp_status response <> 200) /\
  (outcome (check_health os config g) = Ok None ->
   health_status (store (check_health os config g)) = health_status g /\
   backoff_delays (store (check_health os config g)) = backoff_delays g).
Proof.
  destruct (check_health os config g) as [[r g'] t] eqn:Hc. cbn.
  split; [split |].
  - intros ->. run_health Hc. eexists. split; [done |]. by apply Z.eqb_neq.
  - intros (response & Hg & Hs).
    rewrite (check_health_not_200 os _ _ _ Hg Hs) in Hc. by injection Hc as <- _ _.
  - intros ->. by run_health Hc.
Qed.

(** X12. When [check_health] returns a boolean, it has recorded it as the
    health of the service; it never touches the tracked services, nor the
    health records and backoff delays of the other services, and changes
    the backoff delay of the service itself only when it returns [True]. *)
Theorem check_health_records config g b g' t :
  check_health os config g = (Ok (Some b), g', t) ->
  healthy <$> health_status g' !! cfg_name config = Some b /\
  services g' = services g /\
  (forall name, name <> cfg_name config ->
     health_status g' !! name = health_status g !! name /\
     backoff_delays g' !! name = backoff_delays g !! name) /\
  (b = false -> backoff_delays g' = backoff_delays g).
Proof.
  intros H. run_health H;
    (split; [by rewrite lookup_insert_eq |]); (split; [done |]);
    (split; [intros name Hne; by rewrite ?lookup_insert_ne | done]).
Qed.

(** X13. A failure of the request, of the decoding of the response or of
    the lookup in its body that is a subclass of [Exception] makes
    [check_health] return [False] and record the failure, the backoff
    delays being left alone; any other exception leaves [check_health]. *)
Theorem check_health_failure config g e :
  request_error os (clock g) config = Some e ->
  let r := check_health os config g in
  if is_Exception e then
    outcome r = Ok (Some false) /\
    health_status (store r) !! cfg_name config =
      Some {| healthy := false; last_check := datetime_now os (S (clock g));
              detail := inr e |} /\
    backoff_delays (store r) = backoff_delays g
  else outcome r = Raised e.
Proof.
  intros H. unfold request_error in H. cbv zeta.
  unfold check_health, try_except, bind, emit, call, result_of, now, ask,
    modify, log, ret. cbn.
  destruct (http_get os (clock g) _ _) as [response|e1]; simplify_eq/=.
  - destruct (resp_status response =? 200); [| done]. cbn.
    destruct (resp_json response) as [data|e2]; simplify_eq/=.
    + destruct (py_get data "status") as [v|e3]; simplify_eq/=.
      destruct (is_Exception e); cbn; by rewrite ?lookup_insert_eq.
    + destruct (is_Exception e); cbn; by rewrite ?lookup_insert_eq.
  - destruct (is_Exception e); cbn; by rewrite ?lookup_insert_eq.
Qed.

End MoreHealth.

(** ** Backoff delays stay within bounds *)

#[local] Instance keeps_bounds_frame : Frame keeps_bounds.
Proof. split; unfold keeps_bounds; auto. Qed.

Lemma respects_weaken {A} (R R' : Guardian -> Guardian -> Prop)
    (P P' : event -> Prop) (E E' : exn -> Prop) (m : M A) :
  (forall g g', R g g' -> R' g g') ->
  (forall e, P e -> P' e) ->
  (forall e, E e -> E' e) ->
  respects R P E m -> respects R' P' E' m.
Proof.
  intros HR HP HE Hm g r g' t H. apply Hm in H as (? & Ht & He).
  split; [by apply HR |]. split; [| by eauto].
  eapply Forall_impl; [exact Ht | done].
Qed.

Lemma bounded_insert name delay g :
  base_backoff <= delay <= max_backoff ->
  keeps_bounds g (with_backoff_delays (insert name delay) g).
Proof.
  intros Hd Hg n d. cbn. destruct (decide (name = n)) as [->|Hne].
  - rewrite lookup_insert_eq. by intros [= <-].
  - rewrite lookup_insert_ne by done. apply Hg.
Qed.

Lemma bounded_effective name g :
  bounded_backoff g ->
  base_backoff <= effective_backoff name g <= max_backoff.
Proof.
  intros Hg. unfold effective_backoff.
  destruct (backoff_delays g !! name) as [d|] eqn:Hd; cbn; [by eapply Hg | done].
Qed.

Section Bounds.

Variable os : OS.

Abbreviation bounded := (respects keeps_bounds any_event any_exn).

Lemma supervisor_bounded {A} (m : M A) : supervisor m -> bounded m.
Proof.
  apply respects_weaken; [| done..].
  intros g g' (Hb & _) Hg n d. rewrite Hb. apply Hg.
Qed.

Lemma get_backoff_delay_bounded name : bounded (get_backoff_delay name).
Proof.
  intros g r g' t. rewrite get_backoff_delay_eq. intros [= <- <- <-].
  split; [| by split]. intros Hg.
  by apply bounded_insert; [apply bounded_effective |].
Qed.

Lemma increase_backoff_bounded name : bounded (increase_backoff name).
Proof.
  intros g r g' t. unfold increase_backoff, bind, get, modify, log, emit.
  cbn. intros [= <- <- <-]. split; [| split; [by repeat constructor | done]].
  intros Hg. apply bounded_insert; [| done].
  fold (effective_backoff name g).
  pose proof (bounded_effective name g Hg). unfold base_backoff, max_backoff in *.
  lia.
Qed.

Ltac bounds_solve :=
  try done;
  try (intros ? Hg ? ?; cbn; apply Hg);
  try (intros ?; apply bounded_insert; unfold base_backoff, max_backoff; lia).

Lemma check_health_bounded config : bounded (check_health os config).
Proof. unfold check_health. respects_auto; bounds_solve. Qed.

Lemma restart_service_bounded config : bounded (restart_service os config).
Proof.
  pose proof (get_backoff_delay_bounded (cfg_name config)).
  pose proof (increase_backoff_bounded (cfg_name config)).
  pose proof (supervisor_bounded _ (stop_service_supervisor os (cfg_name config))).
  pose proof (supervisor_bounded _ (start_service_supervisor os config)).
  unfold restart_service. respects_auto; bounds_solve.
Qed.

Lemma monitor_service_bounded config : bounded (monitor_service os config).
Proof.
  pose proof (supervisor_bounded _ (is_service_running_supervisor os (cfg_name config))).
  pose proof (check_health_bounded config).
  pose proof (restart_service_bounded config).
  unfold monitor_service. respects_auto; bounds_solve.
Qed.

(** X14. The orchestration loop keeps every recorded backoff delay between
    the floor 5 and the ceiling 300, for as long as it runs and however it
    ends. *)
Theorem background_monitor_keeps_bounds registry fuel g r g' t :
  bounded_backoff g ->
  background_monitor os registry fuel g = (r, g', t) ->
  bounded_backoff g'.
Proof.
  intros Hg H. pose proof monitor_service_bounded as Hvisit.
  assert (bounded (background_monitor os registry fuel)) as Hloop.
  { unfold background_monitor, monitor_iteration, monitor_cycle.
    respects_auto; bounds_solve. }
  apply Hloop in H as (Hk & _). by apply Hk.
Qed.

End Bounds.

Section MoreBackoff.

Variable os : OS.

Lemma next_backoff_bounded name o r d :
  base_backoff <= d <= max_backoff ->
  base_backoff <= next_backoff name o r d <= max_backoff.
Proof.
  unfold base_backoff, max_backoff. intros Hd.
  destruct o as [c|c]; cbn; destruct (_ && _); unfold base_backoff, max_backoff; lia.
Qed.

Lemma applied_waits_bounded name ops rs d :
  base_backoff <= d <= max_backoff ->
  Forall (fun w => base_backoff <= w <= max_backoff) (applied_waits name d ops rs).
Proof.
  revert rs d. induction ops as [|o ops IH]; intros [|r rs] d Hd; cbn; try done.
  apply Forall_app. split.
  - destruct (is_restart_of name o); [by constructor | constructor].
  - by apply IH, next_backoff_bounded.
Qed.

(** X15. Along any history of restarts and health checks that begins with
    the delay of a service within bounds (in particular unrecorded), every
    delay [restart_service] waits for that service is between 5 and 300
    seconds, and so is the delay the next restart will wait. *)
Theorem waits_within_bounds ops name g rs g' t :
  run_ops os ops g = (Ok rs, g', t) ->
  base_backoff <= effective_backoff name g <= max_backoff ->
  Forall (fun w => base_backoff <= w <= max_backoff) (waits name t) /\
  base_backoff <= effective_backoff name g' <= max_backoff.
Proof.
  intros H Hd. apply (run_ops_backoff os _ name) in H as (_ & -> & ->).
  split; [by apply applied_waits_bounded |].
  clear -Hd. revert rs Hd. generalize (effective_backoff name g).
  induction ops as [|o ops IH]; intros d [|r rs] Hd; cbn; try done.
  by apply IH, next_backoff_bounded.
Qed.

End MoreBackoff.

(** ** [restart_service] *)

#[local] Instance others_kept_frame name : Frame (others_kept name).
Proof.
  split; unfold others_kept.
  - done.
  - intros g1 g2 g3 [H1 Hh1] [H2 Hh2]. split; [| congruence].
    intros other Hne. destruct (H1 other Hne), (H2 other Hne). split; congruence.
  - done.
Qed.

Section MoreRestart.

Variable os : OS.

Lemma stop_service_no_new_entry name g r g' t :
  stop_service os name g = (r, g', t) -> existsb is_new_entry t = false.
Proof. intros H. run_service_manager H; done. Qed.

Lemma start_service_new_entry config g g' t :
  start_service os config g = (Ok true, g', t) ->
  if existsb is_new_entry t
  then exists info,
         services g' !! cfg_name config = Some info /\
         default 0 (restart_count info) = 0
  else services g' = services g.
Proof.
  intros H. run_service_manager H; cbn; try done;
    rewrite lookup_insert_eq; by eexists.
Qed.

(** X16. After a restart that returned [True], the restart counter of the
    service is 1 whenever the restart spawned a process or adopted a
    listener, however many restarts came before: [start_service] writes a
    fresh entry.  Only a restart that found the service already running
    adds 1 to the counter the entry had. *)
Theorem restart_counter_after_restart config g g' t :
  restart_service os config g = (Ok true, g', t) ->
  restart_counter (cfg_name config) g' =
    if existsb is_new_entry t
    then Some 1
    else Some (default 0 (restart_counter (cfg_name config) g) + 1).
Proof.
  rewrite restart_service_unfold. cbn zeta.
  destruct (stop_service os _ _) as [[[stopped|e] g1] t1] eqn:Hstop; [| done].
  destruct (start_service os config g1) as [[[[|]|e] g2] t2] eqn:Hstart;
    [| done..].
  intros [= <- <-].
  pose proof (stop_service_no_new_entry _ _ _ _ _ Hstop) as Hn1.
  pose proof (start_service_new_entry _ _ _ _ Hstart) as Hn2.
  destruct (start_service_true os _ _ _ _ Hstart) as [info Hinfo].
  cbn -[record_restart restart_counter].
  rewrite !existsb_app, Hn1. cbn -[record_restart restart_counter].
  rewrite orb_false_r.
  unfold restart_counter at 1.
  rewrite (record_restart_services os _ _ _ Hinfo), lookup_insert_eq. cbn.
  destruct (existsb is_new_entry t2).
  - destruct Hn2 as (info' & Hinfo' & Hcount).
    rewrite Hinfo in Hinfo'. injection Hinfo' as <-. by rewrite Hcount.
  - unfold restart_counter.
    assert (services g !! cfg_name config = Some info) as ->; [| done].
    rewrite Hn2 in Hinfo.
    apply stop_service_services in Hstop as [Hs | Hs]; rewrite Hs in Hinfo.
    + done.
    + by rewrite lookup_delete_eq in Hinfo.
Qed.

Lemma record_restart_others name g : others_kept name g (record_restart os name g).
Proof.
  split.
  - intros other Hne. split.
    + unfold record_restart. cbn. destruct (services g !! name); cbn; [| done].
      by rewrite lookup_insert_ne.
    + rewrite record_restart_backoff. by rewrite lookup_insert_ne.
  - unfold record_restart. cbn. by destruct (services g !! name).
Qed.

Lemma stop_service_others name g r g' t :
  stop_service os name g = (r, g', t) -> others_kept name g g'.
Proof.
  intros H.
  destruct (supervisor_backoff _ _ _ _ _ (stop_service_supervisor os name) H)
    as (Hb & _).
  destruct (stop_service_supervisor os name _ _ _ _ H) as ((_ & Hh & _) & _).
  split; [| done]. intros other Hne. rewrite Hb. split; [| done].
  apply stop_service_services in H as [-> | ->]; [done |].
  by rewrite lookup_delete_ne.
Qed.

Lemma start_service_others config g r g' t :
  start_service os config g = (r, g', t) -> others_kept (cfg_name config) g g'.
Proof.
  intros H.
  destruct (start_service_supervisor os config _ _ _ _ H) as ((Hb & Hh & _) & _).
  split; [| done]. intros other Hne. rewrite Hb. split; [| done].
  by apply (start_service_entries os _ _ _ _ _ H).
Qed.

(** X17. Whatever [restart_service] does for one service, it leaves the
    entries and the backoff delays of the other services, and all health
    records, as they were. *)
Theorem restart_service_frame config g r g' t :
  restart_service os config g = (r, g', t) ->
  (forall other, other <> cfg_name config ->
     services g' !! other = services g !! other /\
     backoff_delays g' !! other = backoff_delays g !! other) /\
  health_status g' = health_status g.
Proof.
  rewrite restart_service_unfold. cbn zeta.
  set (g0 := with_backoff_delays _ g).
  assert (others_kept (cfg_name config) g g0) as H0.
  { split; [| done]. intros other Hne. split; [done |]. cbn.
    by rewrite lookup_insert_ne. }
  destruct (stop_service os _ g0) as [[stopped g1] t1] eqn:Hstop.
  pose proof (frame_trans _ _ _ H0 (stop_service_others _ _ _ _ _ Hstop)) as H1.
  destruct stopped as [stopped|e]; [| by intros [= <- <- <-]].
  destruct (start_service os config g1) as [[started g2] t2] eqn:Hstart.
  pose proof (frame_trans _ _ _ H1 (start_service_others _ _ _ _ _ Hstart)) as H2.
  destruct started as [[|]|e]; intros [= <- <- <-]; [| done..].
  exact (frame_trans _ _ _ H2 (record_restart_others _ _)).
Qed.

End MoreRestart.

(** ** The orchestration loop and the lifecycle sequencer, continued *)

#[local] Instance same_services_frame : Frame same_services.
Proof. split; unfold same_services; [done | congruence | done]. Qed.

#[local] Instance only_removed_frame names : Frame (only_removed names).
Proof.
  split; unfold only_removed.
  - by left.
  - intros g1 g2 g3 H1 H2 name.
    destruct (H2 name) as [H|[? H]]; [| by right].
    rewrite H. apply H1.
  - by left.
Qed.

#[local] Instance only_written_frame names : Frame (only_written names).
Proof.
  split; unfold only_written.
  - done.
  - intros g1 g2 g3 H1 H2 name Hn. rewrite (H2 name Hn). by apply H1.
  - done.
Qed.

Lemma no_process_action_existsb t :
  Forall no_process_action t -> existsb is_process_action t = false.
Proof.
  induction 1 as [|e t He _ IH]; [done |]. cbn. by rewrite He, IH.
Qed.

Lemma spacings_app t1 t2 : spacings (t1 ++ t2) = (spacings t1 + spacings t2)%nat.
Proof. unfold spacings. by rewrite filter_app, length_app. Qed.

Lemma no_spacing_spacings t : Forall no_spacing t -> spacings t = 0%nat.
Proof.
  unfold spacings. induction 1 as [|e t He _ IH]; [done |].
  rewrite filter_cons_False; [done |]. unfold no_spacing in He. congruence.
Qed.

Section MoreLoop.

Variable os : OS.
Variable registry : list Config.

Lemma check_health_quiet config :
  respects same_services no_process_action any_exn (check_health os config).
Proof. unfold check_health. respects_auto; done. Qed.

Lemma monitor_service_quiet config g r g' t :
  monitor_service os config g = (r, g', t) ->
  Restart (cfg_name config) ∉ steps t ->
  services g' = services g /\ existsb is_process_action t = false.
Proof.
  unfold monitor_service. intros H Hno.
  assert (forall g0 r0 g1 t0 pre,
            (restart_service os config;;; ret tt) g0 = (r0, g1, t0) ->
            Restart (cfg_name config) ∈ steps (pre ++ t0)) as Hrestart.
  { intros g0 r0 g1 t0 pre H0.
    assert (steps t0 = [Restart (cfg_name config)]) as Hs.
    { apply bind_inv in H0 as [(b & g4 & t7 & t8 & H4 & [= <- <- <-] & ->)|(e & H4 & ->)];
        apply restart_service_steps in H4; [| done].
      unfold steps in *. by rewrite omap_app, H4. }
    rewrite steps_app, Hs. apply elem_of_app. right. constructor. }
  apply bind_inv in H as [(running & g1 & t1 & t2 & H1 & H2 & ->)|(e & H1 & ->)].
  2:{ rewrite is_service_running_eta in H1. injection H1 as _ <- <-.
      split; [| done]. apply (is_service_running_store os). }
  rewrite is_service_running_eta in H1. injection H1 as _ <- <-.
  pose proof (is_service_running_store os (cfg_name config) g) as [Hs1 _].
  destruct running; cbn [negb app] in *.
  - apply bind_inv in H2 as [(v & g2 & t3 & t4 & H2 & H3 & ->)|(e & H2 & ->)].
    2:{ apply check_health_quiet in H2 as (Hs2 & Ht & _). unfold same_services in Hs2.
        split; [congruence | by apply no_process_action_existsb]. }
    pose proof H2 as H2'.
    apply check_health_quiet in H2 as (Hs2 & Ht & _). unfold same_services in Hs2.
    destruct (truthy v); cbn [negb] in H3.
    + injection H3 as _ <- <-. split; [congruence |].
      rewrite existsb_app, (no_process_action_existsb _ Ht). done.
    + apply bind_inv in H3 as [([] & g3 & t5 & t6 & [= <- <-] & H4 & ->)|(e & [=] & _)].
      exfalso. apply Hno.
      rewrite app_assoc. by eapply Hrestart.
  - apply bind_inv in H2 as [([] & g3 & t5 & t6 & [= <- <-] & H4 & ->)|(e & [=] & _)].
    exfalso. apply Hno. by eapply Hrestart.
Qed.

Lemma for_each_quiet configs g r g' t :
  for_each configs (monitor_service os) g = (r, g', t) ->
  (forall name, Restart name ∉ steps t) ->
  services g' = services g /\ existsb is_process_action t = false.
Proof.
  revert g r g' t.
  induction configs as [|config rest IH]; intros g r g' t; cbn [for_each].
  - by intros [= <- <- <-].
  - intros H Hno.
    apply bind_inv in H as [([] & g1 & t1 & t2 & H1 & H2 & ->)|(e & H1 & ->)].
    + rewrite steps_app in Hno.
      apply monitor_service_quiet in H1 as [Hs1 Ht1];
        [| intros Hin; apply (Hno (cfg_name config)), elem_of_app; by left].
      apply IH in H2 as [Hs2 Ht2];
        [| intros name Hin; apply (Hno name), elem_of_app; by right].
      split; [congruence | by rewrite existsb_app, Ht1, Ht2].
    + by apply monitor_service_quiet in H1.
Qed.

(** X18. A cycle of the loop in which no restart is begun spawns,
    terminates and kills no process and leaves the tracked services as
    they were: the loop acts on processes only through
    [restart_service]. *)
Theorem monitor_cycle_without_restart g r g' t :
  monitor_cycle os registry g = (r, g', t) ->
  (forall name, Restart name ∉ steps t) ->
  services g' = services g /\ existsb is_process_action t = false.
Proof.
  unfold monitor_cycle. intros H Hno.
  apply bind_inv in H as [([] & g1 & t1 & t2 & H1 & [= <- <- <-] & ->)|(e & H1 & ->)].
  - rewrite steps_app, app_nil_r in Hno.
    apply for_each_quiet in H1 as [Hs Ht]; [| done].
    split; [done | by rewrite existsb_app, Ht].
  - by apply for_each_quiet in H1.
Qed.

End MoreLoop.

Lemma elem_of_rev {A} (x : A) (l : list A) : x ∈ rev l -> x ∈ l.
Proof. rewrite !list_elem_of_In. apply in_rev. Qed.

Section Sequencer.

Variable os : OS.

Lemma start_service_written names config :
  cfg_name config ∈ names ->
  respects (only_written names) no_spacing any_exn (start_service os config).
Proof.
  intros Hin g r g' t H. split; [| split; [| done]].
  - intros name Hname. apply (start_service_entries os _ _ _ _ _ H).
    intros ->. done.
  - clear Hin. run_service_manager H; by repeat constructor.
Qed.

Lemma start_all_services_body registry names g r g' t :
  (forall config, config ∈ registry -> cfg_name config ∈ names) ->
  for_each registry (fun config =>
    success <- start_service os config ;;
    (if negb success then log ERROR (MsgFailedToStart (cfg_name config))
     else ret tt) ;;;
    sleep 3) g = (r, g', t) ->
  only_written names g g' /\
  match r with
  | Ok _ => spacings t = length registry
  | Raised _ => (spacings t < length registry)%nat
  end.
Proof.
  revert g r g' t.
  induction registry as [|config rest IH]; intros g r g' t Hnames; cbn [for_each].
  - intros [= <- <- <-]. split; [apply frame_refl | done].
  - intros H.
    assert (cfg_name config ∈ names) as Hin by (apply Hnames; constructor).
    assert (forall c, c ∈ rest -> cfg_name c ∈ names) as Hrest
      by (intros c Hc; apply Hnames; by constructor).
    apply bind_inv in H as [([] & g1 & t1 & t2 & H1 & H2 & ->)|(e & H1 & ->)].
    + apply bind_inv in H1 as [(b & g2 & t3 & t4 & H1 & H3 & ->)|(e & _ & [=])].
      apply (start_service_written names _ Hin) in H1 as (Hw1 & Ht3 & _).
      assert (g1 = g2 /\ spacings t4 = 1%nat) as [-> Ht4].
      { destruct b; cbn in H3; by injection H3 as <- <-. }
      apply (IH _ _ _ _ Hrest) in H2 as [Hw2 Hcount].
      split; [by eapply frame_trans |].
      rewrite !spacings_app, (no_spacing_spacings _ Ht3), Ht4.
      destruct r; cbn; lia.
    + apply bind_inv in H1 as [(b & g2 & t3 & t4 & H1 & H3 & ->)|(e' & H1 & _)].
      { destruct b; cbn in H3; by injection H3. }
      apply (start_service_written names _ Hin) in H1 as (Hw1 & Ht3 & _).
      split; [done |]. rewrite (no_spacing_spacings _ Ht3). cbn. lia.
Qed.

(** X19. [start_all_services] attempts every service of the registry, in
    one pass: when it returns it has paused 3 seconds once per service,
    whether the starts returned [True] or [False]; only an exception
    raised by a start ends it early.  It writes entries for no service
    outside the registry. *)
Theorem start_all_services_attempts_all registry g r g' t :
  start_all_services os registry g = (r, g', t) ->
  (forall name, name ∉ map cfg_name registry ->
     services g' !! name = services g !! name) /\
  match r with
  | Ok _ => spacings t = length registry
  | Raised _ => (spacings t < length registry)%nat
  end.
Proof.
  unfold start_all_services. intros H.
  apply bind_inv in H as [([] & g1 & t1 & t2 & [= <- <-] & H & ->)|(e & [=] & _)].
  apply bind_inv in H as [([] & g2 & t3 & t4 & H1 & [= <- <- <-] & ->)|(e & H1 & ->)];
    apply (start_all_services_body _ (map cfg_name registry)) in H1 as [Hw Hc];
    try (intros config Hconfig; by apply list_elem_of_fmap_2).
  - split; [done |]. by rewrite !spacings_app, Hc.
  - split; [done |]. by rewrite !spacings_app.
Qed.

Lemma stop_service_removed names name :
  name ∈ names ->
  respects (only_removed names) any_event any_exn (stop_service os name).
Proof.
  intros Hin g r g' t H. split; [| split; [by apply Forall_true | done]].
  intros other. apply stop_service_services in H as [-> | ->]; [by left |].
  destruct (decide (other = name)) as [->|Hne].
  - right. by rewrite lookup_delete_eq.
  - left. by rewrite lookup_delete_ne.
Qed.

Lemma stop_all_services_body configs names g r g' t :
  (forall config, config ∈ configs -> cfg_name config ∈ names) ->
  for_each configs (fun config => stop_service os (cfg_name config) ;;; ret tt) g =
    (r, g', t) ->
  only_removed names g g'.
Proof.
  revert g r g' t.
  induction configs as [|config rest IH]; intros g r g' t Hnames; cbn [for_each].
  - intros [= <- <- <-]. apply frame_refl.
  - intros H.
    assert (cfg_name config ∈ names) as Hin by (apply Hnames; constructor).
    assert (forall c, c ∈ rest -> cfg_name c ∈ names) as Hrest
      by (intros c Hc; apply Hnames; by constructor).
    apply bind_inv in H as [([] & g1 & t1 & t2 & H1 & H2 & ->)|(e & H1 & ->)].
    + apply bind_inv in H1 as [(b & g2 & t3 & t4 & H1 & [= <- <-] & ->)|(e & _ & [=])].
      apply (stop_service_removed names _ Hin) in H1 as (Hr1 & _).
      apply (IH _ _ _ _ Hrest) in H2. by eapply frame_trans.
    + apply bind_inv in H1 as [(b & g2 & t3 & t4 & H1 & [=] & _)|(e' & H1 & _)].
      by apply (stop_service_removed names _ Hin) in H1 as (Hr1 & _).
Qed.

(** X20. [stop_all_services] removes entries and adds none, and removes
    only entries of services of the registry, however the stops end. *)
Theorem stop_all_services_only_registry registry g r g' t :
  stop_all_services os registry g = (r, g', t) ->
  forall name,
    services g' !! name = services g !! name \/
    (name ∈ map cfg_name registry /\ services g' !! name = None).
Proof.
  unfold stop_all_services. intros H.
  apply bind_inv in H as [([] & g1 & t1 & t2 & [= <- <-] & H & ->)|(e & [=] & _)].
  assert (forall config, config ∈ rev registry ->
            cfg_name config ∈ map cfg_name registry) as Hnames.
  { intros config Hc. apply list_elem_of_fmap_2. by apply elem_of_rev. }
  apply bind_inv in H as [([] & g2 & t3 & t4 & H1 & [= <- <- <-] & ->)|(e & H1 & ->)];
    by apply (stop_all_services_body _ _ _ _ _ _ Hnames) in H1.
Qed.

(** X21. On a guardian that tracks none of the services of the registry,
    [stop_all_services] only reports each of them as not tracked, from
    the last of the registry to the first, and asks the operating system
    nothing. *)
Theorem stop_all_services_untracked registry g :
  (forall config, config ∈ registry -> services g !! cfg_name config = None) ->
  stop_all_services os registry g =
    (Ok tt, g,
     [Log INFO (MsgBanner "Stopping all services...")] ++
     map (fun config => Log WARNING (MsgNotTracked (cfg_name config)))
       (rev registry) ++
     [Log INFO (MsgBanner "All services stopped")]).
Proof.
  intros Hnone.
  assert (forall configs,
            (forall config, config ∈ configs -> services g !! cfg_name config = None) ->
            for_each configs
              (fun config => stop_service os (cfg_name config) ;;; ret tt) g =
              (Ok tt, g,
               map (fun config => Log WARNING (MsgNotTracked (cfg_name config)))
                 configs)) as Hloop.
  { induction configs as [|config rest IH]; intros Hconfigs; [done |].
    cbn [for_each map]. unfold bind at 1. unfold bind at 1.
    rewrite stop_service_untracked by (apply Hconfigs; constructor). cbn.
    rewrite IH; [done |]. intros c Hc. apply Hconfigs. by constructor. }
  unfold stop_all_services, bind at 1, log at 1, emit at 1.
  unfold bind at 1. rewrite Hloop.
  - done.
  - intros config Hc. apply Hnone. by apply elem_of_rev.
Qed.

End Sequencer.

(** ** [get_service_status] *)

Section Status.

Variable os : OS.

Lemma is_service_running_clock name g r g' t :
  is_service_running os name g = (r, g', t) ->
  (clock g <= clock g')%nat /\ (r = Ok true -> clock g' = S (clock g)).
Proof.
  intros H. unfold is_service_running, try_except, bind, get, call, ret in H.
  cbn in H. repeat (case_match; simplify_eq/=); split; (lia || done).
Qed.

Lemma status_of_entry_widen first next first' next' info st :
  (first' <= first)%nat -> (next <= next')%nat ->
  status_of_entry os first next info st ->
  status_of_entry os first' next' info st.
Proof.
  intros H1 H2 (? & ? & ? & ? & ? & Hrun).
  do 5 (split; [done |]). intros Hst.
  destruct (Hrun Hst) as (? & n & ? & ?). split; [done |].
  exists n. split; [lia | done].
Qed.

Lemma get_service_status_from_sound keys status g statuses g' t :
  get_service_status_from os keys status g = (Ok statuses, g', t) ->
  t = [] /\ services g' = services g /\ (clock g <= clock g')%nat /\
  (forall name st,
     statuses !! name = Some st ->
     status !! name = Some st \/
     (name ∈ keys /\ exists info,
        services g !! name = Some info /\
        status_of_entry os (clock g) (clock g') info st)) /\
  (forall name, name ∈ keys -> is_Some (services g !! name) ->
     is_Some (statuses !! name)) /\
  (forall name, is_Some (status !! name) -> is_Some (statuses !! name)).
Proof.
  revert status g statuses g' t.
  induction keys as [|key rest IH]; intros status g statuses g' t;
    cbn [get_service_status_from].
  - intros [= <- <- <-]. repeat split; [lia | by left | | done].
    intros name Hin. by apply elem_of_nil in Hin.
  - intros H.
    apply bind_inv in H as [(g0 & g9 & t8 & t9 & [= <- <- <-] & H & ->)|(e & [=] & _)].
    cbn [app]. destruct (services g !! key) as [info|] eqn:Hinfo.
    + apply bind_inv in H as [(b & g1 & t1 & t2 & H1 & H2 & ->)|(e & _ & [=])].
      pose proof (is_service_running_clock _ _ _ _ _ H1) as [Hc1 Hrun].
      pose proof (is_service_running_cases os _ _ _ _ _ H1)
        as (-> & Hs1 & Htrue & _).
      apply IH in H2 as (-> & Hs2 & Hc2 & Hsound & Hcomplete & Hkeep).
      rewrite Hs1 in *.
      repeat split; [congruence | lia | | |].
      * intros name st Hst. apply Hsound in Hst as [Hst|(Hin & info' & Hi & Hst)].
        -- destruct (decide (key = name)) as [<-|Hne].
           ++ rewrite lookup_insert_eq in Hst. injection Hst as <-.
              right. split; [constructor |]. exists info. split; [done |].
              unfold status_of_entry. cbn. do 5 (split; [done |]). intros ->.
              destruct (Htrue eq_refl) as (info' & Hi & Hp & Hos).
              rewrite Hinfo in Hi. injection Hi as <-. split; [done |].
              exists (clock g). split; [| done]. rewrite (Hrun eq_refl) in Hc2. lia.
           ++ rewrite lookup_insert_ne in Hst by done. by left.
        -- right. split; [by constructor |]. exists info'. split; [done |].
           eapply status_of_entry_widen; [| | exact Hst]; lia.
      * intros name Hin Hsome. apply elem_of_cons in Hin as [->|Hin].
        -- apply Hkeep. rewrite lookup_insert_eq. by eexists.
        -- by apply Hcomplete.
      * intros name Hsome. apply Hkeep.
        destruct (decide (key = name)) as [<-|Hne].
        -- rewrite lookup_insert_eq. by eexists.
        -- by rewrite lookup_insert_ne.
    + rename H into H0.
      apply IH in H0 as (-> & Hs2 & Hc2 & Hsound & Hcomplete & Hkeep).
      repeat split; [done.. | | | done].
      * intros name st Hst. apply Hsound in Hst as [Hst|(Hin & Hst)]; [by left |].
        right. split; [by constructor | done].
      * intros name Hin Hsome. apply elem_of_cons in Hin as [->|Hin].
        -- rewrite Hinfo in Hsome. by destruct Hsome.
        -- by apply Hcomplete.
Qed.

(** X22. [get_service_status] reports exactly the tracked services among
    the keys it goes through, each with the pid, port, owner and start
    time of its entry and with restart count 0 when the entry has none;
    it reports a service as running only if, during the call, the
    operating system said that its pid runs.  It emits nothing and leaves
    the tracked services alone. *)
Theorem get_service_status_sound keys g statuses g' t :
  get_service_status os keys g = (Ok statuses, g', t) ->
  t = [] /\
  services g' = services g /\
  (forall name st,
     statuses !! name = Some st ->
     name ∈ keys /\
     exists info,
       services g !! name = Some info /\
       status_of_entry os (clock g) (clock g') info st) /\
  (forall name, name ∈ keys -> is_Some (services g !! name) ->
     is_Some (statuses !! name)).
Proof.
  unfold get_service_status. intros H.
  apply get_service_status_from_sound in H
    as (-> & Hs & _ & Hsound & Hcomplete & _).
  split; [done |]. split; [done |]. split; [| done].
  intros name st Hst. by destruct (Hsound _ _ Hst) as [Hempty|?].
Qed.

End Status.

(** ** [_find_venv_python] *)

Section Python.

Variable os : OS.
Variable str_path : string -> string -> string.
Variable sys_executable : string.



End Python.

(** ** The port check of the validation script *)

(** X24. The guardian finds a port in use ([is_port_in_use] returns a pid
    that [start_service] takes as true) only if the port check of the
    validation script finds it in use; the converse holds when every
    connection listening on the port has a known, non-zero pid, and not
    otherwise. *)
Theorem port_in_use_agreement p conns :
  (if_pid (first_listener p conns) <> None -> port_listening p conns = true) /\
  (port_listening p conns = true ->
   Forall (fun conn => listens p conn = true ->
             exists q, conn_pid conn = Some q /\ q <> 0) conns ->
   if_pid (first_listener p conns) <> None).
Proof.
  split.
  - intros H. destruct (port_listening p conns) eqn:Hl; [done |].
    by rewrite (first_listener_None _ _ Hl) in H.
  - intros Hl Hknown.
    destruct (first_listener_split _ _ Hl) as (pre & conn & post & -> & Hc & _ & ->).
    apply Forall_app in Hknown as [_ Hknown].
    apply Forall_cons in Hknown as [Hconn _].
    destruct (Hconn Hc) as (q & -> & Hq). cbn.
    apply Z.eqb_neq in Hq. by rewrite Hq.
Qed.

(** A listener whose pid psutil cannot tell: the validation script sees
    the port in use, the guardian does not. *)
Example port_in_use_disagreement :
  let conns := [ {| laddr_port := 8001; status := "LISTEN"; conn_pid := None |} ] in
  port_listening 8001 conns = true /\ if_pid (first_listener 8001 conns) = None.
Proof. done. Qed.

(** ** Pacing and composition *)

Lemma no_new_entry_spawns t : existsb is_new_entry t = false -> spawns t = 0%nat.
Proof.
  unfold spawns. induction t as [|ev t IH]; [done |]. cbn [existsb].
  intros [Hev Hn]%orb_false_iff.
  rewrite filter_cons_False; [by apply IH |].
  destruct ev; cbn in *; congruence.
Qed.

Section Pacing.

Variable os : OS.
Variable registry : list Config.

(** X25. Every iteration of the loop that ends ends with a pause: 30
    seconds when the cycle ended normally, 10 seconds when the cycle
    raised a subclass of [Exception]; an iteration is left by an exception
    only if that exception is not a subclass of [Exception]. *)
Theorem monitor_iteration_pacing g r g' t :
  monitor_iteration os registry g = (r, g', t) ->
  match r with
  | Ok _ =>
      (outcome (monitor_cycle os registry g) = Ok tt /\ last t = Some (Sleep 30)) \/
      (exists e, outcome (monitor_cycle os registry g) = Raised e /\
         is_Exception e = true /\ last t = Some (Sleep 10))
  | Raised e => is_Exception e = false
  end.
Proof.
  rewrite monitor_iteration_unfold.
  destruct (monitor_cycle os registry g) as [[[[]|e] g1] t1] eqn:Hcycle.
  - intros [= <- <- <-]. left. split; [done |].
    unfold monitor_cycle in Hcycle.
    apply bind_inv in Hcycle
      as [([] & g2 & t2 & t3 & _ & [= <- <-] & ->)|(e & _ & [=])].
    by rewrite last_snoc.
  - destruct (is_Exception e) eqn:He; intros [= <- <- <-]; [| done].
    right. exists e. repeat split; [done |].
    by rewrite last_app.
Qed.

(** X26. Once [stop_service] has returned [True], the service is no
    longer reported running, and [is_service_running] does not even ask
    the operating system. *)
Theorem stopped_is_not_running name g g' t :
  stop_service os name g = (Ok true, g', t) ->
  is_service_running os name g' = (Ok false, g', []).
Proof.
  intros H. destruct (stop_service_entries os _ _ _ _ _ H) as [Hdel _].
  destruct (Hdel eq_refl) as [_ Hs].
  unfold is_service_running, bind, get. by rewrite Hs, lookup_delete_eq.
Qed.

(** X27. An exception that leaves [stop_service] leaves [restart_service]
    too, after the backoff wait and before any start: nothing is spawned,
    and the delay of the service is not increased. *)
Theorem restart_service_stop_raises config g e g1 t1 :
  let name := cfg_name config in
  let delay := effective_backoff name g in
  stop_service os name (with_backoff_delays (insert name delay) g) =
    (Raised e, g1, t1) ->
  let r := restart_service os config g in
  outcome r = Raised e /\
  events r = [Log INFO (MsgWaitingBeforeRestart delay name); Sleep delay] ++ t1 /\
  spawns (events r) = 0%nat /\
  effective_backoff name (store r) = delay.
Proof.
  intros name delay Hstop r. subst r name delay.
  rewrite restart_service_unfold. cbn zeta. rewrite Hstop. cbn.
  destruct (supervisor_backoff _ _ _ _ _ (stop_service_supervisor os _) Hstop)
    as (Hb & _).
  repeat split.
  - pose proof (stop_service_no_new_entry os _ _ _ _ _ Hstop) as Hn.
    apply no_new_entry_spawns. by cbn.
  - unfold effective_backoff at 1. rewrite Hb. cbn. by rewrite lookup_insert_eq.
Qed.

End Pacing.

(** ** The sample systems, continued *)

Lemma is_port_in_use_first_listener_witness :
  exists o,
    is_port_in_use busy_os 8001 fresh_guardian = (Ok o, tick fresh_guardian, []) /\
    o = Some 4242.
Proof.
  destruct (is_port_in_use_first_listener busy_os 8001 fresh_guardian
              [ {| laddr_port := 22; status := "LISTEN"; conn_pid := Some 1 |};
                {| laddr_port := 8001; status := "LISTEN"; conn_pid := Some 4242 |} ])
    as (o & Heq & _ & Hsome).
  - reflexivity.
  - exists o. split; [exact Heq |].
    vm_compute in Heq. congruence.
Defined.

Lemma is_service_running_sound_witness :
  exists info,
    services tracking_guardian !! "character_extraction" = Some info /\
    pid info <> 0 /\
    process_is_running live_os (clock tracking_guardian) (pid info) = Ok true.
Proof.
  pose (x := is_service_running live_os "character_extraction" tracking_guardian).
  destruct (is_service_running_sound live_os "character_extraction"
              tracking_guardian (outcome x) (store x) (events x))
    as (_ & _ & Htrue & _).
  - vm_compute. reflexivity.
  - apply Htrue. vm_compute. reflexivity.
Defined.

Lemma start_service_spawns_witness :
  let r := start_service fresh_os character_extraction fresh_guardian in
  outcome r = Ok true /\
  spawns (events r) = 1%nat /\
  last (events r) = Some (Sleep 2) /\
  restart_counter "character_extraction" (store r) = Some 0.
Proof.
  destruct (start_service_spawns fresh_os character_extraction fresh_guardian
              [] 5000) as (Hr & Hs & Hl & Hentry).
  - reflexivity.
  - reflexivity.
  - vm_compute. reflexivity.
  - vm_compute. reflexivity.
  - vm_compute. reflexivity.
  - cbn zeta. split; [exact Hr |]. split; [exact Hs |]. split; [exact Hl |].
    unfold restart_counter. rewrite Hentry. vm_compute. reflexivity.
Defined.


Lemma stop_service_outcomes_witness :
  services (store (stop_service live_os "character_extraction" tracking_guardian)) =
  delete "character_extraction" (services tracking_guardian).
Proof.
  pose (x := stop_service live_os "character_extraction" tracking_guardian).
  destruct (stop_service_outcomes live_os "character_extraction"
              tracking_guardian (outcome x) (store x) (events x)) as (Htrue & _).
  - vm_compute. reflexivity.
  - apply Htrue. vm_compute. reflexivity.
Defined.

Lemma stop_service_signals_witness :
  Terminate 4242 ∈
    events (stop_service stubborn_os "character_extraction" tracking_guardian).
Proof.
  pose (x := stop_service stubborn_os "character_extraction" tracking_guardian).
  destruct (stop_service_signals stubborn_os "character_extraction"
              tracking_guardian (outcome x) (store x) (events x)) as (_ & Hkill).
  - vm_compute. reflexivity.
  - apply Hkill. apply list_elem_of_In. vm_compute. tauto.
Defined.

Lemma stop_service_graceful_witness :
  let r := stop_service live_os "character_extraction" tracking_guardian in
  outcome r = Ok true /\
  services (store r) = delete "character_extraction" (services tracking_guardian) /\
  events r =
    [Log INFO (MsgStopping "character_extraction" 4242); Terminate 4242;
     Wait 4242 10; Log INFO (MsgStoppedGracefully "character_extraction")].
Proof.
  apply (stop_service_graceful live_os "character_extraction" tracking_guardian
           tracked_entry).
  - vm_compute. reflexivity.
  - simpl. lia.
  - reflexivity.
  - reflexivity.
  - reflexivity.
Defined.

Lemma stop_service_escalates_witness :
  let r := stop_service stubborn_os "character_extraction" tracking_guardian in
  Kill 4242 ∈ events r /\
  outcome r = Ok true /\
  services (store r) = delete "character_extraction" (services tracking_guardian).
Proof.
  apply (stop_service_escalates stubborn_os "character_extraction"
           tracking_guardian tracked_entry).
  - vm_compute. reflexivity.
  - simpl. lia.
  - reflexivity.
  - reflexivity.
  - reflexivity.
  - reflexivity.
Defined.

Lemma start_then_stop_witness :
  services
    (store (stop_service fresh_os "character_extraction"
              (store (start_service fresh_os character_extraction fresh_guardian)))) =
  services fresh_guardian.
Proof.
  pose (x := start_service fresh_os character_extraction fresh_guardian).
  pose (y := stop_service fresh_os "character_extraction" (store x)).
  destruct (start_then_stop fresh_os character_extraction fresh_guardian
              (store x) (events x) (store y) (events y)) as (_ & Hback).
  - vm_compute. reflexivity.
  - vm_compute. reflexivity.
  - apply Hback. vm_compute. reflexivity.
Defined.

Lemma check_health_true_iff_witness :
  outcome (check_health fresh_os character_extraction tracking_guardian) =
    Ok (Some true).
Proof.
  apply (check_health_true_iff fresh_os character_extraction tracking_guardian).
  exists {| resp_status := 200;
            resp_json := Ok (JObject [("status", JString "healthy")]) |},
         [("status", JString "healthy")].
  repeat split; reflexivity.
Defined.

Lemma check_health_None_iff_witness :
  health_status
    (store (check_health failing_os character_extraction tracking_guardian)) =
    health_status tracking_guardian /\
  backoff_delays
    (store (check_health failing_os character_extraction tracking_guardian)) =
    backoff_delays tracking_guardian.
Proof.
  apply (proj2 (check_health_None_iff failing_os character_extraction
                  tracking_guardian)).
  vm_compute. reflexivity.
Defined.

Lemma check_health_records_witness :
  healthy <$>
    health_status
      (store (check_health busy_os character_extraction tracking_guardian))
    !! "character_extraction" = Some false.
Proof.
  pose (x := check_health busy_os character_extraction tracking_guardian).
  destruct (check_health_records busy_os character_extraction tracking_guardian
              false (store x) (events x)) as (Hrec & _).
  - vm_compute. reflexivity.
  - exact Hrec.
Defined.

Lemma check_health_failure_witness :
  outcome (check_health idle_os character_extraction tracking_guardian) =
    Ok (Some false).
Proof.
  destruct (check_health_failure idle_os character_extraction tracking_guardian
              (OtherError "ClientConnectorError")) as (Hr & _).
  - reflexivity.
  - exact Hr.
Defined.

Lemma background_monitor_keeps_bounds_witness :
  bounded_backoff
    (store (background_monitor idle_os STARTUP_ORDER 2 fresh_guardian)).
Proof.
  pose (x := background_monitor idle_os STARTUP_ORDER 2 fresh_guardian).
  apply (background_monitor_keeps_bounds idle_os STARTUP_ORDER 2 fresh_guardian
           (outcome x) (store x) (events x)).
  - intros name delay H. vm_compute in H. discriminate.
  - vm_compute. reflexivity.
Defined.

Lemma waits_within_bounds_witness :
  Forall (fun w => base_backoff <= w <= max_backoff)
    (waits "character_extraction"
       (events (run_ops busy_os sample_history fresh_guardian))).
Proof.
  pose (x := run_ops busy_os sample_history fresh_guardian).
  destruct (waits_within_bounds busy_os sample_history "character_extraction"
              fresh_guardian sample_results (store x) (events x)) as (Hw & _).
  - vm_compute. reflexivity.
  - vm_compute. split; discriminate.
  - exact Hw.
Defined.

Lemma restart_counter_after_restart_witness :
  restart_counter "character_extraction" tracking_guardian = Some 1 /\
  restart_counter "character_extraction"
    (store (restart_service fresh_os character_extraction tracking_guardian)) =
    Some 1.
Proof.
  split; [vm_compute; reflexivity |].
  pose (x := restart_service fresh_os character_extraction tracking_guardian).
  refine (eq_trans
            (restart_counter_after_restart fresh_os character_extraction
               tracking_guardian (store x) (events x) _) _).
  - vm_compute. reflexivity.
  - vm_compute. reflexivity.
Defined.

Lemma restart_service_frame_witness :
  health_status
    (store (restart_service fresh_os character_extraction tracking_guardian)) =
  health_status tracking_guardian.
Proof.
  pose (x := restart_service fresh_os character_extraction tracking_guardian).
  destruct (restart_service_frame fresh_os character_extraction tracking_guardian
              (outcome x) (store x) (events x)) as (_ & Hh).
  - vm_compute. reflexivity.
  - exact Hh.
Defined.

Lemma monitor_cycle_without_restart_witness :
  let r := monitor_cycle fresh_os STARTUP_ORDER running_guardian in
  services (store r) = services running_guardian /\
  existsb is_process_action (events r) = false.
Proof.
  pose (x := monitor_cycle fresh_os STARTUP_ORDER running_guardian).
  apply (monitor_cycle_without_restart fresh_os STARTUP_ORDER running_guardian
           (outcome x) (store x) (events x)).
  - vm_compute. reflexivity.
  - intros name Hin. vm_compute in Hin.
    repeat (apply elem_of_cons in Hin as [Hin|Hin]; [discriminate Hin |]).
    by apply elem_of_nil in Hin.
Defined.

Lemma start_all_services_attempts_all_witness :
  outcome (start_all_services idle_os STARTUP_ORDER fresh_guardian) = Ok tt /\
  spacings (events (start_all_services idle_os STARTUP_ORDER fresh_guardian)) =
    5%nat.
Proof.
  split; [vm_compute; reflexivity |].
  pose (x := start_all_services idle_os STARTUP_ORDER fresh_guardian).
  destruct (start_all_services_attempts_all idle_os STARTUP_ORDER fresh_guardian
              (Ok tt) (store x) (events x)) as (_ & Hc).
  - vm_compute. reflexivity.
  - exact Hc.
Defined.

Lemma stop_all_services_only_registry_witness :
  services (store (stop_all_services live_os STARTUP_ORDER tracking_guardian))
    !! "character_extraction" =
    services tracking_guardian !! "character_extraction" \/
  ("character_extraction" ∈ map cfg_name STARTUP_ORDER /\
   services (store (stop_all_services live_os STARTUP_ORDER tracking_guardian))
     !! "character_extraction" = None).
Proof.
  pose (x := stop_all_services live_os STARTUP_ORDER tracking_guardian).
  apply (stop_all_services_only_registry live_os STARTUP_ORDER tracking_guardian
           (outcome x) (store x) (events x)).
  vm_compute. reflexivity.
Defined.

Lemma stop_all_services_untracked_witness :
  events (stop_all_services idle_os STARTUP_ORDER fresh_guardian) =
    [ Log INFO (MsgBanner "Stopping all services...");
      Log WARNING (MsgNotTracked "rag_service");
      Log WARNING (MsgNotTracked "metadata_service");
      Log WARNING (MsgNotTracked "query_engine");
      Log WARNING (MsgNotTracked "document_processor");
      Log WARNING (MsgNotTracked "character_extraction");
      Log INFO (MsgBanner "All services stopped") ].
Proof.
  rewrite (stop_all_services_untracked idle_os STARTUP_ORDER fresh_guardian).
  - reflexivity.
  - intros config _. reflexivity.
Defined.

Lemma get_service_status_sound_witness :
  exists n,
    (clock tracking_guardian <= n)%nat /\
    process_is_running live_os n 4242 = Ok true.
Proof.
  pose (x := get_service_status live_os ["character_extraction"] tracking_guardian).
  pose (st := {| status_running := true; status_pid := 4242; status_port := 8001;
                 status_started_by := guardian; status_start_time := Some 3;
                 status_restart_count := 1 |}).
  destruct (get_service_status_sound live_os ["character_extraction"]
              tracking_guardian {["character_extraction" := st]}
              (store x) (events x)) as (_ & _ & Hsound & _).
  - vm_compute. reflexivity.
  - destruct (Hsound "character_extraction" st)
      as (_ & info & Hinfo & _ & _ & _ & _ & _ & Hrun).
    + apply lookup_singleton_eq.
    + destruct (Hrun eq_refl) as (_ & n & [Hn _] & Hos).
      vm_compute in Hinfo. injection Hinfo as <-.
      exists n. split; [exact Hn | exact Hos].
Defined.

Lemma port_in_use_agreement_witness :
  if_pid (first_listener 8001
            [ {| laddr_port := 22; status := "LISTEN"; conn_pid := Some 1 |};
              {| laddr_port := 8001; status := "LISTEN"; conn_pid := Some 4242 |} ])
    <> None.
Proof.
  apply (proj2 (port_in_use_agreement 8001
                  [ {| laddr_port := 22; status := "LISTEN"; conn_pid := Some 1 |};
                    {| laddr_port := 8001; status := "LISTEN";
                       conn_pid := Some 4242 |} ])).
  - reflexivity.
  - repeat constructor; intros _; eexists; (split; [reflexivity | lia]).
Defined.

Lemma monitor_iteration_pacing_witness :
  last (events (monitor_iteration denied_os STARTUP_ORDER fresh_guardian)) =
    Some (Sleep 10).
Proof.
  pose (x := monitor_iteration denied_os STARTUP_ORDER fresh_guardian).
  pose proof (monitor_iteration_pacing denied_os STARTUP_ORDER fresh_guardian
                (Ok tt) (store x) (events x)) as H.
  destruct H as [[Hok _]|(e & _ & _ & Hlast)].
  - vm_compute. reflexivity.
  - vm_compute in Hok. discriminate Hok.
  - exact Hlast.
Defined.

Lemma stopped_is_not_running_witness :
  outcome
    (is_service_running live_os "character_extraction"
       (store (stop_service live_os "character_extraction" tracking_guardian))) =
    Ok false.
Proof.
  pose (x := stop_service live_os "character_extraction" tracking_guardian).
  assert (stop_service live_os "character_extraction" tracking_guardian =
          (Ok true, store x, events x)) as Hstop by (vm_compute; reflexivity).
  exact (f_equal outcome
           (stopped_is_not_running live_os "character_extraction"
              tracking_guardian (store x) (events x) Hstop)).
Defined.

Lemma restart_service_stop_raises_witness :
  let r := restart_service unkillable_os character_extraction tracking_guardian in
  outcome r = Raised TimeoutExpired /\
  spawns (events r) = 0%nat /\
  effective_backoff "character_extraction" (store r) = 5.
Proof.
  pose (x := stop_service unkillable_os "character_extraction"
               (with_backoff_delays (insert "character_extraction" 5)
                  tracking_guardian)).
  destruct (restart_service_stop_raises unkillable_os character_extraction
              tracking_guardian TimeoutExpired (store x) (events x))
    as (Hr & _ & Hs & Hb).
  - vm_compute. reflexivity.
  - cbn zeta. split; [exact Hr |]. split; [exact Hs | exact Hb].
Defined.
